(** * The selection plugin of the tree view

    A shallow embedding of
    [packages/x-tree-view/src/internals/plugins/useTreeViewSelection/useTreeViewSelection.ts]
    and the properties of its operations.

    The plugin keeps two refs ([lastSelectedItem], [lastSelectedRange]) next
    to the model [models.selectedItems.value]; every operation reads them,
    calls the two optional callbacks of [params] and writes them back.  The
    embedding threads that triple through a small state monad that also
    records every callback invocation and can end in a JavaScript
    [TypeError]. *)

From stdpp Require Import base strings list gmap fin_maps.

Set Default Proof Using "Type".
Set Warnings "-register-all".

(** ** Data model *)

(** [models.selectedItems.value] has the TypeScript type
    [string[] | string | null]; the mode does not tag the value, so the
    embedding keeps the three run-time shapes apart. *)
Inductive SelectedItems : Type :=
| SelNull
| SelOne (itemId : string)
| SelMany (itemIds : list string).

#[global] Instance SelectedItems_eq_dec : EqDecision SelectedItems.
Proof. solve_decision. Defined.

(** The defaultized [params].  A callback is a host function that the
    plugin only calls; the record says whether it is configured. *)
Record Params : Type := mkParams {
  disableSelection : bool;
  multiSelect : bool;
  onItemSelectionToggle : bool;
  onSelectedItemsChange : bool
}.

(** The names that an ordinary object inherits from [Object.prototype];
    each of them reads as a function or an object, which a condition takes
    for true. *)
Definition inheritedNames : list string :=
  ["constructor"; "__proto__"; "hasOwnProperty"; "isPrototypeOf";
   "propertyIsEnumerable"; "toLocaleString"; "toString"; "valueOf";
   "__defineGetter__"; "__defineSetter__"; "__lookupGetter__";
   "__lookupSetter__"].

Definition inherited (name : string) : bool :=
  bool_decide (name ∈ inheritedNames).

(** A JavaScript object used as a map from item ids to booleans: its own
    properties, and whether it is an ordinary object, which inherits the
    names above.  The object literals of the plugin ([{}] and the literal
    of the arrow step) are ordinary objects. *)
Record LookupObject : Type := mkLookup {
  own : gmap string bool;
  ordinary : bool
}.

#[global] Instance LookupObject_eq_dec : EqDecision LookupObject.
Proof. solve_decision. Defined.

(** The literal [{}]. *)
#[global] Instance LookupObject_empty : Empty LookupObject := mkLookup ∅ true.

(** The own keys of the object. *)
#[global] Instance LookupObject_dom : Dom LookupObject (gset string) :=
  fun lookup => dom (own lookup).

(** The (Anchor, LastRangeLookup, SelectionValue) triple:
    [lastSelectedItem.current], [lastSelectedRange.current] and
    [models.selectedItems.value]. *)
Record State : Type := mkState {
  lastSelectedItem : option string;
  lastSelectedRange : LookupObject;
  selectedItems : SelectedItems
}.

#[global] Instance State_eq_dec : EqDecision State.
Proof. solve_decision. Defined.

(** What the host is told.  The casts [as string] of [setSelectedItems] are
    erased at run time, so the payload of a toggle is whatever value the
    plugin passes. *)
Inductive Notification : Type :=
| ItemSelectionToggle (item : SelectedItems) (isSelected : bool)
| SelectedItemsChange (value : SelectedItems).

#[global] Instance Notification_eq_dec : EqDecision Notification.
Proof. solve_decision. Defined.

(** One callback invocation, with the triple as it stands at that moment. *)
Record Call : Type := mkCall {
  told : Notification;
  seen : State
}.

(** ** The monad of the plugin: state, callback log, [TypeError] *)

Inductive Outcome (A : Type) : Type :=
| Returned (a : A) (st : State) (calls : list Call)
| Threw (st : State) (calls : list Call).
Arguments Returned {A} a st calls.
Arguments Threw {A} st calls.

Definition M (A : Type) : Type := State -> Outcome A.

Definition ret {A} (a : A) : M A := fun st => Returned a st [].

Definition bind {A B} (m : M A) (f : A -> M B) : M B := fun st =>
  match m st with
  | Returned a st1 calls1 =>
      match f a st1 with
      | Returned b st2 calls2 => Returned b st2 (calls1 ++ calls2)
      | Threw st2 calls2 => Threw st2 (calls1 ++ calls2)
      end
  | Threw st1 calls1 => Threw st1 calls1
  end.

Declare Scope engine_scope.
Delimit Scope engine_scope with engine.
Notation "x <- m ;; k" := (bind m (fun x => k))
  (at level 100, m at next level, k at level 200, right associativity)
  : engine_scope.
Notation "m ;; k" := (bind m (fun _ => k))
  (at level 100, k at level 200, right associativity) : engine_scope.
Open Scope engine_scope.

Definition get : M State := fun st => Returned st st [].
Definition throwTypeError {A} : M A := fun st => Threw st [].
Definition invoke (n : Notification) : M unit :=
  fun st => Returned tt st [mkCall n st].

Definition setLastSelectedItem (v : option string) : M unit := fun st =>
  Returned tt (mkState v (lastSelectedRange st) (selectedItems st)) [].
Definition setLastSelectedRange (v : LookupObject) : M unit := fun st =>
  Returned tt (mkState (lastSelectedItem st) v (selectedItems st)) [].
(** [models.selectedItems.setControlledValue]: the value handed to the
    owner becomes the value of the model. *)
Definition setControlledValue (v : SelectedItems) : M unit := fun st =>
  Returned tt (mkState (lastSelectedItem st) (lastSelectedRange st) v) [].

(** [array.forEach(callback)] *)
Fixpoint forEach {A} (l : list A) (f : A -> M unit) : M unit :=
  match l with
  | [] => ret tt
  | x :: l' => f x ;; forEach l' f
  end.

(** [(v as string[])]: the cast does nothing; calling [.filter] on
    something that is not an array throws. *)
Definition asArray (v : SelectedItems) : M (list string) :=
  match v with
  | SelMany ids => ret ids
  | _ => throwTypeError
  end.

(** The final state and the notifications of a run. *)
Definition finalState {A} (o : Outcome A) : State :=
  match o with Returned _ st _ | Threw st _ => st end.
Definition callsOf {A} (o : Outcome A) : list Call :=
  match o with Returned _ _ c | Threw _ c => c end.
Definition notifications {A} (o : Outcome A) : list Notification :=
  told <$> callsOf o.
Definition returns {A} (o : Outcome A) : bool :=
  match o with Returned _ _ _ => true | Threw _ _ => false end.

(** ** Adapters of [useTreeViewSelection.utils] *)

(** Modelled from the spec: [convertSelectedItemsToArray] of
    [useTreeViewSelection.utils] is not part of the sources at hand.  It
    normalizes the external value (scalar, sequence or null) to a
    sequence, null giving the empty one. *)
Definition convertSelectedItemsToArray (v : SelectedItems) : list string :=
  match v with
  | SelNull => []
  | SelOne itemId => [itemId]
  | SelMany ids => ids
  end.

(** Modelled from the spec: [getLookupFromArray] of
    [useTreeViewSelection.utils] is not part of the sources at hand.  It
    constructs the lookup of a sequence, the set of its ids: every id of
    the sequence is mapped to [true], and no other id reads true. *)
Definition getLookupFromArray (array : list string) : LookupObject :=
  mkLookup (foldl (fun lookup itemId => <[itemId := true]> lookup) ∅ array) false.

(** [lookup[id]] used as a condition: an own property gives its value; a
    name that is not an own property is looked up in the prototype, where
    an ordinary object finds the inherited names, all true as a condition;
    anything else is undefined, which is false. *)
Definition truthy (lookup : LookupObject) (itemId : string) : bool :=
  match own lookup !! itemId with
  | Some b => b
  | None => ordinary lookup && inherited itemId
  end.

(** [Object.keys(lookup).length]: the own keys. *)
Definition keysLength (lookup : LookupObject) : nat := size (own lookup).

(** The literal [{ [currentItem]: true, [nextItem]: true }]: an ordinary
    object; a computed key defines an own property, whatever its name. *)
Definition objectOfTwo (currentItem nextItem : string) : LookupObject :=
  mkLookup (<[nextItem := true]> (<[currentItem := true]> ∅)) true.

(** [lookup[itemId] = true].  On an ordinary object the name [__proto__]
    that is not an own property goes to the inherited setter, which
    ignores a boolean; every other assignment sets an own property. *)
Definition assignTrue (lookup : LookupObject) (itemId : string) : LookupObject :=
  if ordinary lookup && bool_decide (itemId = "__proto__")
     && bool_decide (own lookup !! itemId = None)
  then lookup
  else mkLookup (<[itemId := true]> (own lookup)) (ordinary lookup).

(** [delete lookup[itemId]]: removes an own property. *)
Definition deleteProperty (lookup : LookupObject) (itemId : string) : LookupObject :=
  mkLookup (delete itemId (own lookup)) (ordinary lookup).

(** ** [selectedItemsMap] and [isItemSelected] *)

Definition selectedItemsMap (value : SelectedItems) : gmap string bool :=
  match value with
  | SelMany ids => foldl (fun temp id => <[id := true]> temp) ∅ ids
  | SelOne itemId => <[itemId := true]> ∅
  | SelNull => ∅
  end.

(** [selectedItemsMap.has(itemId)] *)
Definition isItemSelected (value : SelectedItems) (itemId : string) : bool :=
  match selectedItemsMap value !! itemId with
  | Some _ => true
  | None => false
  end.

(** An id appears in a value: it is the scalar, or an element of the
    sequence; nothing appears in null. *)
Definition appearsIn (itemId : string) (value : SelectedItems) : Prop :=
  match value with
  | SelNull => False
  | SelOne x => x = itemId
  | SelMany ids => itemId ∈ ids
  end.

(** [array.includes(itemId)] *)
Definition includes (array : list string) (itemId : string) : bool :=
  bool_decide (itemId ∈ array).

(** [a !== b] on model values.  Strings compare by content.  An array is
    compared by identity, and every array [selectItem] hands to
    [setSelectedItems] in single mode is freshly built by [filter] or
    [concat], so it is never identical to the value of the model. *)
Definition strictNotEqual (a b : SelectedItems) : bool :=
  match a, b with
  | SelNull, SelNull => false
  | SelOne x, SelOne y => negb (bool_decide (x = y))
  | _, _ => true
  end.

(** [v != null] *)
Definition notNull (v : SelectedItems) : bool :=
  match v with SelNull => false | _ => true end.

(** ** [setSelectedItems] *)

Definition setSelectedItems (params : Params) (newSelectedItems : SelectedItems)
  : M unit :=
  (if onItemSelectionToggle params then
     st <- get ;;
     if multiSelect params then
       new <- asArray newSelectedItems ;;
       let addedItems :=
         filter (fun itemId => isItemSelected (selectedItems st) itemId = false) new in
       old <- asArray (selectedItems st) ;;
       let removedItems :=
         filter (fun itemId => includes new itemId = false) old in
       forEach addedItems (fun itemId => invoke (ItemSelectionToggle (SelOne itemId) true)) ;;
       forEach removedItems (fun itemId => invoke (ItemSelectionToggle (SelOne itemId) false))
     else if strictNotEqual newSelectedItems (selectedItems st) then
       (if notNull (selectedItems st)
        then invoke (ItemSelectionToggle (selectedItems st) false)
        else ret tt) ;;
       (if notNull newSelectedItems
        then invoke (ItemSelectionToggle newSelectedItems true)
        else ret tt)
     else ret tt
   else ret tt) ;;
  (if onSelectedItemsChange params
   then invoke (SelectedItemsChange newSelectedItems)
   else ret tt) ;;
  setControlledValue newSelectedItems.

(** ** The operations of the plugin *)

Section Plugin.

(** The tree utilities of [internals/utils/tree] are imported by the
    plugin and not part of the sources at hand; the operations are
    parametric in them.  [Instance] is the tree view instance they
    read.  Here every call of a utility answers with ids; the module
    [Fallible] below has the same operations over utilities that may
    fail or answer with an undefined id. *)
Context {Instance : Type}.
Variable getNonDisabledItemsInRange : Instance -> string -> string -> list string.
Variable getAllNavigableItems : Instance -> list string.
Variable findOrderInTremauxTree : Instance -> string -> string -> string * string.
Variable getFirstNavigableItem : Instance -> string.
Variable getLastNavigableItem : Instance -> string.

Variable params : Params.
Variable instance : Instance.

Definition selectItem (itemId : string) (multiple : bool) : M unit :=
  if disableSelection params then ret tt
  else
    st <- get ;;
    let newSelected :=
      if multiple then
        let cleanSelectedItems := convertSelectedItemsToArray (selectedItems st) in
        if isItemSelected (selectedItems st) itemId
        then SelMany (filter (fun id => id ≠ itemId) cleanSelectedItems)
        else SelMany ([itemId] ++ cleanSelectedItems)
      else if multiSelect params then SelMany [itemId] else SelOne itemId in
    setSelectedItems params newSelected ;;
    setLastSelectedItem (Some itemId) ;;
    setLastSelectedRange ∅.

Definition selectRange (range_ends : string * string) : M unit :=
  let '(start, end_) := range_ends in
  if disableSelection params || negb (multiSelect params) then ret tt
  else
    st <- get ;;
    let newSelectedItems := convertSelectedItemsToArray (selectedItems st) in
    let newSelectedItems :=
      if 0 <? keysLength (lastSelectedRange st)
      then filter (fun id => truthy (lastSelectedRange st) id = false) newSelectedItems
      else newSelectedItems in
    let selectedItemsLookup := getLookupFromArray newSelectedItems in
    let range := getNonDisabledItemsInRange instance start end_ in
    let itemsToAddToModel :=
      filter (fun id => truthy selectedItemsLookup id = false) range in
    let newSelectedItems := newSelectedItems ++ itemsToAddToModel in
    setSelectedItems params (SelMany newSelectedItems) ;;
    setLastSelectedRange (getLookupFromArray range).

Definition expandSelectionRange (itemId : string) : M unit :=
  st <- get ;;
  match lastSelectedItem st with
  | Some anchor =>
      selectRange (findOrderInTremauxTree instance itemId anchor)
  | None => ret tt
  end.

Definition selectRangeFromStartToItem (itemId : string) : M unit :=
  selectRange (getFirstNavigableItem instance, itemId).

Definition selectRangeFromItemToEnd (itemId : string) : M unit :=
  selectRange (itemId, getLastNavigableItem instance).

Definition selectAllNavigableItems : M unit :=
  if disableSelection params || negb (multiSelect params) then ret tt
  else
    let navigableItems := getAllNavigableItems instance in
    setSelectedItems params (SelMany navigableItems) ;;
    setLastSelectedRange (getLookupFromArray navigableItems).

Definition selectItemFromArrowNavigation (currentItem nextItem : string)
  : M unit :=
  if disableSelection params || negb (multiSelect params) then ret tt
  else
    st <- get ;;
    let newSelectedItems := convertSelectedItemsToArray (selectedItems st) in
    newSelectedItems <-
      (if keysLength (lastSelectedRange st) =? 0 then
         setLastSelectedRange (objectOfTwo currentItem nextItem) ;;
         ret (newSelectedItems ++ [nextItem])
       else
         (if negb (truthy (lastSelectedRange st) currentItem)
          then setLastSelectedRange ∅
          else ret tt) ;;
         st1 <- get ;;
         if truthy (lastSelectedRange st1) nextItem then
           setLastSelectedRange (deleteProperty (lastSelectedRange st1) currentItem) ;;
           ret (filter (fun id => id ≠ currentItem) newSelectedItems)
         else
           setLastSelectedRange (assignTrue (lastSelectedRange st1) nextItem) ;;
           ret (newSelectedItems ++ [nextItem])) ;;
    setSelectedItems params (SelMany newSelectedItems).

(** The operations the plugin exposes, as one type, to quantify over
    them. *)
Inductive Operation : Type :=
| SelectItem (itemId : string) (multiple : bool)
| SelectRange (start end_ : string)
| ExpandSelectionRange (itemId : string)
| SelectRangeFromStartToItem (itemId : string)
| SelectRangeFromItemToEnd (itemId : string)
| SelectAllNavigableItems
| SelectItemFromArrowNavigation (currentItem nextItem : string).

Definition perform (op : Operation) : M unit :=
  match op with
  | SelectItem itemId multiple => selectItem itemId multiple
  | SelectRange start end_ => selectRange (start, end_)
  | ExpandSelectionRange itemId => expandSelectionRange itemId
  | SelectRangeFromStartToItem itemId => selectRangeFromStartToItem itemId
  | SelectRangeFromItemToEnd itemId => selectRangeFromItemToEnd itemId
  | SelectAllNavigableItems => selectAllNavigableItems
  | SelectItemFromArrowNavigation currentItem nextItem =>
      selectItemFromArrowNavigation currentItem nextItem
  end.

End Plugin.

(** The guards of the operations: [disableSelection], the mode, and the
    unset anchor of [expandSelectionRange].  An operation that passes them
    reaches [setSelectedItems]; one that does not returns at once. *)
Definition modeAllows (params : Params) (op : Operation) : bool :=
  match op with
  | SelectItem _ _ => true
  | _ => multiSelect params
  end.

Definition anchorAllows (st : State) (op : Operation) : bool :=
  match op with
  | ExpandSelectionRange _ => bool_decide (is_Some (lastSelectedItem st))
  | _ => true
  end.

Definition mutating (params : Params) (st : State) (op : Operation) : bool :=
  negb (disableSelection params) && modeAllows params op && anchorAllows st op.

Definition isArrowNavigation (op : Operation) : bool :=
  match op with
  | SelectItemFromArrowNavigation _ _ => true
  | _ => false
  end.

(** The shape the data model gives the value: a sequence in multi mode. *)
Definition isArray (v : SelectedItems) : bool :=
  match v with SelMany _ => true | _ => false end.

Definition wellShaped (params : Params) (st : State) : bool :=
  implb (multiSelect params) (isArray (selectedItems st)).

(** The toggle of one id, and the ids that a new sequence adds to and
    removes from an old one. *)
Definition toggle (isSelected : bool) (itemId : string) : Notification :=
  ItemSelectionToggle (SelOne itemId) isSelected.

Definition addedItems (old new : list string) : list string :=
  filter (fun itemId => itemId ∉ old) new.

Definition removedItems (old new : list string) : list string :=
  filter (fun itemId => itemId ∉ new) old.

(** The notifications of one [setSelectedItems], from the old and the new
    value: the per-item toggles, then the aggregate change. *)
Definition itemToggles (params : Params) (old new : SelectedItems)
  : list Notification :=
  if multiSelect params then
    (toggle true
       <$> addedItems (convertSelectedItemsToArray old) (convertSelectedItemsToArray new))
    ++ (toggle false
          <$> removedItems (convertSelectedItemsToArray old) (convertSelectedItemsToArray new))
  else if strictNotEqual new old then
    (if notNull old then [ItemSelectionToggle old false] else [])
    ++ (if notNull new then [ItemSelectionToggle new true] else [])
  else [].

Definition expectedNotifications (params : Params) (old new : SelectedItems)
  : list Notification :=
  (if onItemSelectionToggle params then itemToggles params old new else [])
  ++ (if onSelectedItemsChange params then [SelectedItemsChange new] else []).

(** Callbacks that all ran against the same triple. *)
Definition observedAt (st : State) (ns : list Notification) : list Call :=
  (fun n => mkCall n st) <$> ns.

Definition withValue (st : State) (v : SelectedItems) : State :=
  mkState (lastSelectedItem st) (lastSelectedRange st) v.

(** One arrow step on the lookup and the sequence, as a function: what
    [selectItemFromArrowNavigation] leaves in [lastSelectedRange] and hands
    to [setSelectedItems]. *)
Definition arrowStep (lookup : LookupObject) (items : list string)
    (currentItem nextItem : string) : LookupObject * list string :=
  if keysLength lookup =? 0 then
    (objectOfTwo currentItem nextItem, items ++ [nextItem])
  else
    let lookup1 := if negb (truthy lookup currentItem) then ∅ else lookup in
    if truthy lookup1 nextItem
    then (deleteProperty lookup1 currentItem,
          filter (fun id => id ≠ currentItem) items)
    else (assignTrue lookup1 nextItem, items ++ [nextItem]).

(** What [selectRange] keeps of the current value: when the last range
    lookup has own keys, the ids it does not read as true; all of them
    when it has none. *)
Definition keptOutsideLastRange (st : State) : list string :=
  if 0 <? keysLength (lastSelectedRange st)
  then filter (fun id => truthy (lastSelectedRange st) id = false)
         (convertSelectedItemsToArray (selectedItems st))
  else convertSelectedItemsToArray (selectedItems st).

(** The aggregate notifications among those of a run. *)
Definition isAggregate (n : Notification) : bool :=
  match n with
  | SelectedItemsChange _ => true
  | ItemSelectionToggle _ _ => false
  end.

Definition aggregates (ns : list Notification) : list Notification :=
  filter (fun n => isAggregate n = true) ns.

(** A run is atomic when it returns and every callback it made saw either
    the triple it started from or the triple it ended in. *)
Definition atomicRun (st : State) (out : Outcome unit) : Prop :=
  returns out = true
  /\ Forall (fun c => seen c = st \/ seen c = finalState out) (callsOf out).

(** ** The operations when a tree utility may fail *)

(** What a call into [internals/utils/tree] comes to: an answer, or a
    failure (the utility throws, or it has no result and line 121 cannot
    destructure it).  An id the plugin passes on or gets back may be
    undefined. *)
Inductive Answer (A : Type) : Type :=
| Gives (a : A)
| Fails.
Arguments Gives {A} a.
Arguments Fails {A}.

Definition call {A} (answer : Answer A) : M A :=
  match answer with
  | Gives a => ret a
  | Fails => throwTypeError
  end.

Definition gives {A} (answer : Answer A) : bool :=
  match answer with Gives _ => true | Fails => false end.

Module Fallible.

Section Plugin.

(** The same operations, with each call of a tree utility at its place in
    the source and allowed to fail.  [selectItem] and
    [selectItemFromArrowNavigation] call no utility. *)
Context {Instance : Type}.
Variable getNonDisabledItemsInRange :
  Instance -> option string -> option string -> Answer (list string).
Variable getAllNavigableItems : Instance -> Answer (list string).
Variable findOrderInTremauxTree :
  Instance -> string -> string -> Answer (option string * option string).
Variable getFirstNavigableItem : Instance -> Answer (option string).
Variable getLastNavigableItem : Instance -> Answer (option string).

Variable params : Params.
Variable instance : Instance.

Definition selectRange (range_ends : option string * option string) : M unit :=
  let '(start, end_) := range_ends in
  if disableSelection params || negb (multiSelect params) then ret tt
  else
    st <- get ;;
    let newSelectedItems := convertSelectedItemsToArray (selectedItems st) in
    let newSelectedItems :=
      if 0 <? keysLength (lastSelectedRange st)
      then filter (fun id => truthy (lastSelectedRange st) id = false) newSelectedItems
      else newSelectedItems in
    let selectedItemsLookup := getLookupFromArray newSelectedItems in
    range <- call (getNonDisabledItemsInRange instance start end_) ;;
    let itemsToAddToModel :=
      filter (fun id => truthy selectedItemsLookup id = false) range in
    let newSelectedItems := newSelectedItems ++ itemsToAddToModel in
    setSelectedItems params (SelMany newSelectedItems) ;;
    setLastSelectedRange (getLookupFromArray range).

Definition expandSelectionRange (itemId : string) : M unit :=
  st <- get ;;
  match lastSelectedItem st with
  | Some anchor =>
      range_ends <- call (findOrderInTremauxTree instance itemId anchor) ;;
      selectRange range_ends
  | None => ret tt
  end.

Definition selectRangeFromStartToItem (itemId : string) : M unit :=
  first <- call (getFirstNavigableItem instance) ;;
  selectRange (first, Some itemId).

Definition selectRangeFromItemToEnd (itemId : string) : M unit :=
  last <- call (getLastNavigableItem instance) ;;
  selectRange (Some itemId, last).

Definition selectAllNavigableItems : M unit :=
  if disableSelection params || negb (multiSelect params) then ret tt
  else
    navigableItems <- call (getAllNavigableItems instance) ;;
    setSelectedItems params (SelMany navigableItems) ;;
    setLastSelectedRange (getLookupFromArray navigableItems).

Definition perform (op : Operation) : M unit :=
  match op with
  | SelectItem itemId multiple => selectItem params itemId multiple
  | SelectRange start end_ => selectRange (Some start, Some end_)
  | ExpandSelectionRange itemId => expandSelectionRange itemId
  | SelectRangeFromStartToItem itemId => selectRangeFromStartToItem itemId
  | SelectRangeFromItemToEnd itemId => selectRangeFromItemToEnd itemId
  | SelectAllNavigableItems => selectAllNavigableItems
  | SelectItemFromArrowNavigation currentItem nextItem =>
      selectItemFromArrowNavigation params currentItem nextItem
  end.

(** Whether every utility the operation calls from this triple answers.
    The range and the navigable items are asked for after the guard of
    [selectRange] and [selectAllNavigableItems]; the order and the first
    and last item are asked for before it. *)
Definition rangeAnswers (range_ends : option string * option string) : bool :=
  disableSelection params || negb (multiSelect params)
  || gives (getNonDisabledItemsInRange instance range_ends.1 range_ends.2).

Definition utilitiesAnswer (st : State) (op : Operation) : bool :=
  match op with
  | SelectItem _ _ => true
  | SelectItemFromArrowNavigation _ _ => true
  | SelectRange start end_ => rangeAnswers (Some start, Some end_)
  | ExpandSelectionRange itemId =>
      match lastSelectedItem st with
      | None => true
      | Some anchor =>
          match findOrderInTremauxTree instance itemId anchor with
          | Gives range_ends => rangeAnswers range_ends
          | Fails => false
          end
      end
  | SelectRangeFromStartToItem itemId =>
      match getFirstNavigableItem instance with
      | Gives first => rangeAnswers (first, Some itemId)
      | Fails => false
      end
  | SelectRangeFromItemToEnd itemId =>
      match getLastNavigableItem instance with
      | Gives last => rangeAnswers (Some itemId, last)
      | Fails => false
      end
  | SelectAllNavigableItems =>
      disableSelection params || negb (multiSelect params)
      || gives (getAllNavigableItems instance)
  end.

End Plugin.

(** A series of operations, each on the tree as it is at that time; a
    throw ends the series. *)
Definition performSeries {Instance : Type}
    (getNonDisabledItemsInRange :
       Instance -> option string -> option string -> Answer (list string))
    (getAllNavigableItems : Instance -> Answer (list string))
    (findOrderInTremauxTree :
       Instance -> string -> string -> Answer (option string * option string))
    (getFirstNavigableItem getLastNavigableItem : Instance -> Answer (option string))
    (params : Params) (steps : list (Instance * Operation)) : M unit :=
  forEach steps
    (fun step =>
       perform getNonDisabledItemsInRange getAllNavigableItems
         findOrderInTremauxTree getFirstNavigableItem getLastNavigableItem
         params step.1 step.2).

End Fallible.

(** ** The tree index, the order oracle and the range extractor *)

(** Modelled from the spec: the tree index is built by the host and
    [internals/utils/tree] is not part of the sources at hand.  The index
    is a forest; a node has an id, the flags disabled and expanded, and its
    children in document order. *)
Inductive TreeItem : Type :=
| Item (itemId : string) (isDisabled isExpanded : bool) (children : list TreeItem).

Definition TreeIndex : Type := list TreeItem.

(** Modelled from the spec: the pre-order traversal of a node, each id with
    its navigable flag (not disabled, and visible under the expansion of
    its ancestors). *)
Fixpoint preorder (visible : bool) (item : TreeItem) : list (string * bool) :=
  match item with
  | Item itemId isDisabled isExpanded children =>
      (itemId, visible && negb isDisabled)
        :: flat_map (preorder (visible && isExpanded)) children
  end.

Definition documentOrder (tree : TreeIndex) : list (string * bool) :=
  flat_map (preorder true) tree.

Definition position (tree : TreeIndex) (itemId : string) : option nat :=
  fst <$> list_find (fun entry => entry.1 = itemId) (documentOrder tree).

(** Modelled from the spec: the order oracle [order(idA, idB, treeIndex)]
    returns the pair ordered by the pre-order traversal, and has no result
    when one of the ids is absent from the index. *)
Definition order (tree : TreeIndex) (idA idB : string) : option (string * string) :=
  match position tree idA, position tree idB with
  | Some i, Some j => Some (if bool_decide (i ≤ j) then (idA, idB) else (idB, idA))
  | _, _ => None
  end.

Definition navigableIds (entries : list (string * bool)) : list string :=
  fst <$> filter (fun entry => entry.2 = true) entries.

(** Modelled from the spec: the range extractor
    [rangeBetween(startId, endId, treeIndex)] finds the document order of
    its ends with the order oracle and walks the node sequence between the
    two bounds, both included, keeping the navigable nodes; absent ids give
    the empty sequence. *)
Definition rangeBetween (tree : TreeIndex) (startId endId : string) : list string :=
  match order tree startId endId with
  | Some (first, last) =>
      match position tree first, position tree last with
      | Some i, Some j =>
          navigableIds (take (S j - i) (drop i (documentOrder tree)))
      | _, _ => []
      end
  | None => []
  end.

(** Modelled from the spec: [allNavigableItems()], [firstNavigableItem()]
    and [lastNavigableItem()] of the tree index. *)
Definition allNavigableItems (tree : TreeIndex) : list string :=
  navigableIds (documentOrder tree).

Definition firstNavigableItem (tree : TreeIndex) : option string :=
  head (allNavigableItems tree).

Definition lastNavigableItem (tree : TreeIndex) : option string :=
  last (allNavigableItems tree).

(** Modelled from the spec: the tree utilities as the plugin calls them.
    The order oracle has an undefined or error result when an id is absent
    from the index, which the call site cannot destructure; the range
    extractor gives the empty sequence for an absent id rather than
    failing; the first and the last navigable item may be missing. *)
Definition treeRange (tree : TreeIndex) (startId endId : option string)
  : Answer (list string) :=
  match startId, endId with
  | Some startId, Some endId => Gives (rangeBetween tree startId endId)
  | _, _ => Gives []
  end.

Definition treeAll (tree : TreeIndex) : Answer (list string) :=
  Gives (allNavigableItems tree).

Definition treeOrder (tree : TreeIndex) (idA idB : string)
  : Answer (option string * option string) :=
  match order tree idA idB with
  | Some (first, last) => Gives (Some first, Some last)
  | None => Fails
  end.

Definition treeFirst (tree : TreeIndex) : Answer (option string) :=
  Gives (firstNavigableItem tree).

Definition treeLast (tree : TreeIndex) : Answer (option string) :=
  Gives (lastNavigableItem tree).

(** The operations over the tree index. *)
Definition performOnTree (params : Params) (tree : TreeIndex) (op : Operation) : M unit :=
  Fallible.perform treeRange treeAll treeOrder treeFirst treeLast params tree op.

Definition performSeriesOnTree (params : Params)
    (steps : list (TreeIndex * Operation)) : M unit :=
  Fallible.performSeries treeRange treeAll treeOrder treeFirst treeLast params steps.

(** A tree to run the operations on: [1 > 1.1 > 1.1.1], [2], [3]
    (disabled), [4]; everything expanded. *)
Definition sampleTree : TreeIndex :=
  [ Item "1" false true [ Item "1.1" false true [ Item "1.1.1" false true [] ] ];
    Item "2" false true [];
    Item "3" true true [];
    Item "4" false true [] ].

Definition multiParams : Params := mkParams false true true true.
Definition singleParams : Params := mkParams false false true true.
Definition disabledParams : Params := mkParams true true true true.

Definition emptyState (v : SelectedItems) : State := mkState None ∅ v.

(** The trees of [SimpleTreeView.test.tsx]. *)
Definition cleanTree : TreeIndex :=
  [ Item "one" false false []; Item "two" false false [] ].

Definition nestedTree : TreeIndex :=
  [ Item "1" false true [ Item "1.1" false true [ Item "1.1.1" false false [] ] ];
    Item "2" false true [] ].

Definition swappedTree : TreeIndex :=
  [ Item "1" false false []; Item "3" false false []; Item "2" false false [] ].


(** ** Defaultized parameters and the first triple *)

(** The parameters as the host gives them: a flag it leaves out is
    undefined, a default value may be left out or null. *)
Record RawParams : Type := mkRawParams {
  rawDisableSelection : option bool;
  rawMultiSelect : option bool;
  rawDefaultSelectedItems : option SelectedItems;
  rawOnItemSelectionToggle : bool;
  rawOnSelectedItemsChange : bool
}.

(** What [getDefaultizedParams] returns: the flags, and the default value
    of the model. *)
Record DefaultizedParams : Type := mkDefaultizedParams {
  defaultized : Params;
  defaultSelectedItems : SelectedItems
}.

(** [v ?? d] on a value of the model: null and undefined give [d]. *)
Definition nullishOr (v : option SelectedItems) (d : SelectedItems) : SelectedItems :=
  match v with
  | None | Some SelNull => d
  | Some x => x
  end.

(** [DEFAULT_SELECTED_ITEMS] *)
Definition DEFAULT_SELECTED_ITEMS : list string := [].

Definition getDefaultizedParams (raw : RawParams) : DefaultizedParams :=
  {| defaultized :=
       mkParams (default false (rawDisableSelection raw))
         (default false (rawMultiSelect raw))
         (rawOnItemSelectionToggle raw) (rawOnSelectedItemsChange raw);
     defaultSelectedItems :=
       nullishOr (rawDefaultSelectedItems raw)
         (if default false (rawMultiSelect raw)
          then SelMany DEFAULT_SELECTED_ITEMS else SelNull) |}.

(** Defaultized parameters are parameters: every field is given. *)
Definition asRawParams (d : DefaultizedParams) : RawParams :=
  mkRawParams (Some (disableSelection (defaultized d)))
    (Some (multiSelect (defaultized d)))
    (Some (defaultSelectedItems d))
    (onItemSelectionToggle (defaultized d))
    (onSelectedItemsChange (defaultized d)).

(** The triple of a tree that does not control its selection:
    [useRef(null)], [useRef({})] and
    [models.selectedItems.getDefaultValue(params)]. *)
Definition firstState (d : DefaultizedParams) : State :=
  mkState None ∅ (defaultSelectedItems d).

(** [setSelectedItems] can compute its toggles: it does not have to, or the
    value is a sequence. *)
Definition safeToNotify (params : Params) (st : State) : bool :=
  negb (multiSelect params && onItemSelectionToggle params)
  || isArray (selectedItems st).

(** * Properties *)

(** ** Lists *)

Lemma filter_all {A} (P : A -> Prop) `{!forall x, Decision (P x)} (l : list A) :
  Forall P l -> filter P l = l.
Proof.
  induction 1 as [|x l Hx Hl IH]; [done|].
  by rewrite filter_cons_True, IH.
Qed.

Lemma filter_none {A} (P : A -> Prop) `{!forall x, Decision (P x)} (l : list A) :
  Forall (fun x => ~ P x) l -> filter P l = [].
Proof.
  induction 1 as [|x l Hx Hl IH]; [done|].
  by rewrite filter_cons_False.
Qed.

(** ** Lookups *)

Lemma foldl_insert_lookup (array : list string) (m : gmap string bool) (itemId : string) :
  foldl (fun lookup id => <[id := true]> lookup) m array !! itemId
  = if decide (itemId ∈ array) then Some true else m !! itemId.
Proof.
  revert m. induction array as [|x array IH]; intros m.
  - case_decide as Hin; [by apply not_elem_of_nil in Hin|done].
  - cbn [foldl]. rewrite IH.
    destruct (decide (itemId ∈ array)) as [Hin|Hnin].
    + by rewrite decide_True by (by right).
    + destruct (decide (x = itemId)) as [->|Hne].
      * rewrite lookup_insert_eq. by rewrite decide_True by left.
      * rewrite lookup_insert_ne by done.
        rewrite decide_False; [done|].
        intros [->|?]%elem_of_cons; done.
Qed.

Lemma getLookupFromArray_lookup (array : list string) (itemId : string) :
  own (getLookupFromArray array) !! itemId
  = if decide (itemId ∈ array) then Some true else None.
Proof.
  unfold getLookupFromArray. cbn [own].
  by rewrite foldl_insert_lookup, lookup_empty.
Qed.

Lemma truthy_getLookupFromArray (array : list string) (itemId : string) :
  truthy (getLookupFromArray array) itemId = bool_decide (itemId ∈ array).
Proof.
  unfold truthy. rewrite getLookupFromArray_lookup.
  destruct (decide (itemId ∈ array)).
  - by rewrite bool_decide_eq_true_2.
  - by rewrite bool_decide_eq_false_2.
Qed.

Lemma dom_getLookupFromArray (array : list string) :
  dom (getLookupFromArray array) = list_to_set array.
Proof.
  unfold dom, LookupObject_dom. apply set_eq. intros itemId.
  rewrite elem_of_dom, getLookupFromArray_lookup, elem_of_list_to_set.
  destruct (decide (itemId ∈ array)); split; intros H; done || by destruct H.
Qed.

Lemma keysLength_zero (lookup : LookupObject) :
  (keysLength lookup =? 0) = true <-> own lookup = ∅.
Proof. unfold keysLength. rewrite Nat.eqb_eq. apply map_size_empty_iff. Qed.

Lemma getLookupFromArray_no_keys (array : list string) :
  keysLength (getLookupFromArray array) = 0 -> array = [].
Proof.
  intros Hkeys. destruct array as [|x array]; [done|].
  assert (own (getLookupFromArray (x :: array)) = ∅) as Hempty
    by (apply keysLength_zero, Nat.eqb_eq; done).
  pose proof (getLookupFromArray_lookup (x :: array) x) as Hx.
  rewrite Hempty, lookup_empty, decide_True in Hx by left. done.
Qed.

(** The reads of a lookup that is a set of ids, and of an ordinary object
    at a name that is not inherited, are the reads of its own keys. *)
Lemma truthy_own (lookup : LookupObject) (itemId : string) :
  ordinary lookup = false \/ inherited itemId = false ->
  truthy lookup itemId = bool_decide (own lookup !! itemId = Some true).
Proof.
  intros Hplain. unfold truthy.
  destruct (own lookup !! itemId) as [[|]|] eqn:Hown.
  - by rewrite bool_decide_eq_true_2.
  - by rewrite bool_decide_eq_false_2.
  - rewrite bool_decide_eq_false_2 by done.
    destruct Hplain as [-> | ->]; [done|]. apply andb_false_r.
Qed.

(** ** [isItemSelected] *)

Lemma isItemSelected_convert (value : SelectedItems) (itemId : string) :
  isItemSelected value itemId
  = bool_decide (itemId ∈ convertSelectedItemsToArray value).
Proof.
  unfold isItemSelected.
  destruct value as [|x|ids]; cbn [selectedItemsMap convertSelectedItemsToArray].
  - rewrite lookup_empty. by rewrite bool_decide_eq_false_2 by apply not_elem_of_nil.
  - destruct (decide (x = itemId)) as [->|Hne].
    + rewrite lookup_insert_eq. by rewrite bool_decide_eq_true_2 by left.
    + rewrite lookup_insert_ne, lookup_empty by done.
      rewrite bool_decide_eq_false_2; [done|].
      intros ?%list_elem_of_singleton. by subst.
  - rewrite foldl_insert_lookup, lookup_empty.
    destruct (decide (itemId ∈ ids)).
    + by rewrite bool_decide_eq_true_2.
    + by rewrite bool_decide_eq_false_2.
Qed.

(** ** [setSelectedItems] *)

Lemma forEach_invoke {A} (l : list A) (f : A -> Notification) (st : State) :
  forEach l (fun x => invoke (f x)) st = Returned tt st (observedAt st (f <$> l)).
Proof.
  induction l as [|x l IH]; [done|].
  cbn [forEach]. unfold bind. unfold invoke at 1. rewrite IH. done.
Qed.

Lemma filter_not_selected (old new : list string) :
  filter (fun itemId => isItemSelected (SelMany old) itemId = false) new
  = addedItems old new.
Proof.
  apply list_filter_iff. intros itemId.
  rewrite isItemSelected_convert. apply bool_decide_eq_false.
Qed.

Lemma filter_not_includes (old new : list string) :
  filter (fun itemId => includes new itemId = false) old = removedItems old new.
Proof. apply list_filter_iff. intros itemId. apply bool_decide_eq_false. Qed.

Lemma wellShaped_multi (params : Params) (st : State) :
  multiSelect params = true -> wellShaped params st = true ->
  selectedItems st = SelMany (convertSelectedItemsToArray (selectedItems st)).
Proof.
  unfold wellShaped. intros ->. by destruct (selectedItems st).
Qed.

Lemma setSelectedItems_returns (params : Params) (st : State) (new : SelectedItems) :
  wellShaped params st = true ->
  (multiSelect params = true -> isArray new = true) ->
  setSelectedItems params new st
  = Returned tt (withValue st new)
      (observedAt st (expectedNotifications params (selectedItems st) new)).
Proof.
  intros Hshape Hnew.
  unfold setSelectedItems, expectedNotifications, itemToggles.
  destruct (multiSelect params) eqn:Hmulti.
  - pose proof (wellShaped_multi _ _ Hmulti Hshape) as Hval.
    set (old := convertSelectedItemsToArray (selectedItems st)) in *.
    destruct new as [| |new]; try (by specialize (Hnew eq_refl)).
    cbn [convertSelectedItemsToArray].
    destruct (onItemSelectionToggle params), (onSelectedItemsChange params);
      unfold bind, get, asArray, ret; rewrite ?Hval; cbv beta iota;
      rewrite ?filter_not_selected, ?filter_not_includes;
      repeat (rewrite forEach_invoke; cbv beta iota);
      unfold invoke, setControlledValue, withValue, observedAt;
      cbn [app fmap list_fmap];
      rewrite ?fmap_app, ?app_nil_r, <-?(assoc_L (++)); done.
  - destruct (onItemSelectionToggle params), (onSelectedItemsChange params);
      unfold bind, get; cbv beta iota;
      destruct (strictNotEqual new (selectedItems st)),
        (notNull (selectedItems st)), (notNull new); reflexivity.
Qed.

(** ** Running the operations *)

Ltac run_binds :=
  unfold bind, get, ret; cbv beta iota.

Ltac run_setSelectedItems :=
  rewrite setSelectedItems_returns by (done || (intros _; reflexivity));
  cbv beta iota.

Lemma filter_not_in_lookup (kept range : list string) :
  filter (fun id => truthy (getLookupFromArray kept) id = false) range
  = filter (fun id => id ∉ kept) range.
Proof.
  apply list_filter_iff. intros id.
  rewrite truthy_getLookupFromArray. apply bool_decide_eq_false.
Qed.

Lemma selectItem_run (params : Params) (st : State) (itemId : string) (multiple : bool) :
  disableSelection params = false ->
  wellShaped params st = true ->
  let new :=
    if multiple then
      if isItemSelected (selectedItems st) itemId
      then SelMany (filter (fun id => id ≠ itemId)
                      (convertSelectedItemsToArray (selectedItems st)))
      else SelMany (itemId :: convertSelectedItemsToArray (selectedItems st))
    else if multiSelect params then SelMany [itemId] else SelOne itemId in
  selectItem params itemId multiple st
  = Returned tt (mkState (Some itemId) ∅ new)
      (observedAt st (expectedNotifications params (selectedItems st) new)).
Proof.
  intros Hdis Hshape new. unfold selectItem. rewrite Hdis. run_binds.
  fold new.
  rewrite setSelectedItems_returns; [|done|].
  - cbv beta iota. unfold setLastSelectedItem, setLastSelectedRange, withValue.
    cbn [lastSelectedItem lastSelectedRange selectedItems].
    by rewrite !app_nil_r.
  - intros Hmulti. subst new. rewrite Hmulti.
    by destruct multiple, (isItemSelected (selectedItems st) itemId).
Qed.

Lemma selectItem_disabled (params : Params) (st : State) (itemId : string) (multiple : bool) :
  disableSelection params = true ->
  selectItem params itemId multiple st = Returned tt st [].
Proof. intros Hdis. unfold selectItem. by rewrite Hdis. Qed.

Section Facts.

Context {Instance : Type}.
Variable getNonDisabledItemsInRange : Instance -> string -> string -> list string.
Variable getAllNavigableItems : Instance -> list string.
Variable findOrderInTremauxTree : Instance -> string -> string -> string * string.
Variable getFirstNavigableItem : Instance -> string.
Variable getLastNavigableItem : Instance -> string.

Lemma selectRange_run (params : Params) (instance : Instance) (st : State)
    (start end_ : string) :
  disableSelection params = false ->
  multiSelect params = true ->
  wellShaped params st = true ->
  let range := getNonDisabledItemsInRange instance start end_ in
  let kept := keptOutsideLastRange st in
  let new := SelMany (kept ++ filter (fun id => id ∉ kept) range) in
  selectRange getNonDisabledItemsInRange params instance (start, end_) st
  = Returned tt (mkState (lastSelectedItem st) (getLookupFromArray range) new)
      (observedAt st (expectedNotifications params (selectedItems st) new)).
Proof.
  intros Hdis Hmulti Hshape range kept new.
  unfold selectRange. rewrite Hdis, Hmulti. cbn [orb negb]. run_binds.
  fold (keptOutsideLastRange st). fold kept.
  rewrite filter_not_in_lookup. fold range. fold new.
  run_setSelectedItems.
  unfold setLastSelectedRange, withValue.
  cbn [lastSelectedItem lastSelectedRange selectedItems].
  by rewrite !app_nil_r.
Qed.

Lemma selectRange_skipped (params : Params) (instance : Instance) (st : State)
    (ends : string * string) :
  disableSelection params || negb (multiSelect params) = true ->
  selectRange getNonDisabledItemsInRange params instance ends st
  = Returned tt st [].
Proof. intros Hgate. unfold selectRange. destruct ends. by rewrite Hgate. Qed.

Lemma selectAllNavigableItems_run (params : Params) (instance : Instance) (st : State) :
  disableSelection params = false ->
  multiSelect params = true ->
  wellShaped params st = true ->
  let navigableItems := getAllNavigableItems instance in
  selectAllNavigableItems getAllNavigableItems params instance st
  = Returned tt
      (mkState (lastSelectedItem st) (getLookupFromArray navigableItems)
         (SelMany navigableItems))
      (observedAt st
         (expectedNotifications params (selectedItems st) (SelMany navigableItems))).
Proof.
  intros Hdis Hmulti Hshape navigableItems.
  unfold selectAllNavigableItems. rewrite Hdis, Hmulti. cbn [orb negb].
  run_binds. fold navigableItems. run_setSelectedItems.
  unfold setLastSelectedRange, withValue.
  cbn [lastSelectedItem lastSelectedRange selectedItems].
  by rewrite !app_nil_r.
Qed.

Lemma selectAllNavigableItems_skipped (params : Params) (instance : Instance) (st : State) :
  disableSelection params || negb (multiSelect params) = true ->
  selectAllNavigableItems getAllNavigableItems params instance st
  = Returned tt st [].
Proof. intros Hgate. unfold selectAllNavigableItems. by rewrite Hgate. Qed.

End Facts.

Lemma selectItemFromArrowNavigation_run (params : Params) (st : State)
    (currentItem nextItem : string) :
  disableSelection params = false ->
  multiSelect params = true ->
  wellShaped params st = true ->
  let step := arrowStep (lastSelectedRange st)
                (convertSelectedItemsToArray (selectedItems st)) currentItem nextItem in
  selectItemFromArrowNavigation params currentItem nextItem st
  = Returned tt (mkState (lastSelectedItem st) step.1 (SelMany step.2))
      (observedAt (mkState (lastSelectedItem st) step.1 (selectedItems st))
         (expectedNotifications params (selectedItems st) (SelMany step.2))).
Proof.
  intros Hdis Hmulti Hshape step. subst step.
  unfold selectItemFromArrowNavigation, arrowStep.
  rewrite Hdis, Hmulti. cbn [orb negb]. run_binds.
  destruct (keysLength (lastSelectedRange st) =? 0).
  - run_binds. unfold setLastSelectedRange at 1. cbv beta iota.
    run_setSelectedItems. by rewrite !app_nil_l.
  - run_binds.
    destruct (truthy (lastSelectedRange st) currentItem) eqn:Hcur; cbn [negb];
      [|unfold setLastSelectedRange at 1]; cbv beta iota;
      cbn [lastSelectedItem lastSelectedRange selectedItems].
    + destruct (truthy (lastSelectedRange st) nextItem);
        unfold setLastSelectedRange at 1; cbv beta iota;
        run_setSelectedItems; by rewrite !app_nil_l.
    + destruct (truthy ∅ nextItem);
        unfold setLastSelectedRange at 1; cbv beta iota;
        run_setSelectedItems; by rewrite !app_nil_l.
Qed.

Lemma selectItemFromArrowNavigation_skipped (params : Params) (st : State)
    (currentItem nextItem : string) :
  disableSelection params || negb (multiSelect params) = true ->
  selectItemFromArrowNavigation params currentItem nextItem st = Returned tt st [].
Proof. intros Hgate. unfold selectItemFromArrowNavigation. by rewrite Hgate. Qed.

Ltac give_outcome :=
  match goal with
  | |- exists st' seenSt, Returned _ ?X (observedAt ?Y _) = _ /\ _ =>
      exists X, Y; split; [reflexivity|]
  end.

Section PerformFacts.

Context {Instance : Type}.
Variable getNonDisabledItemsInRange : Instance -> string -> string -> list string.
Variable getAllNavigableItems : Instance -> list string.
Variable findOrderInTremauxTree : Instance -> string -> string -> string * string.
Variable getFirstNavigableItem : Instance -> string.
Variable getLastNavigableItem : Instance -> string.

Local Abbreviation performOn :=
  (perform getNonDisabledItemsInRange getAllNavigableItems findOrderInTremauxTree
     getFirstNavigableItem getLastNavigableItem).

Lemma mutating_true (params : Params) (st : State) (op : Operation) :
  mutating params st op = true ->
  disableSelection params = false /\ modeAllows params op = true
  /\ anchorAllows st op = true.
Proof.
  unfold mutating. intros [[Hdis ?]%andb_prop ?]%andb_prop.
  by apply negb_true_iff in Hdis.
Qed.

(** An operation that passes its guards returns, hands the new value to
    the model and tells the host; all callbacks run against one triple,
    which is the triple before the operation unless the operation is the
    arrow step. *)
Lemma perform_mutating (params : Params) (instance : Instance) (st : State)
    (op : Operation) :
  mutating params st op = true ->
  wellShaped params st = true ->
  exists st' seenSt,
    performOn params instance op st
    = Returned tt st'
        (observedAt seenSt
           (expectedNotifications params (selectedItems st) (selectedItems st')))
    /\ wellShaped params st' = true
    /\ (isArrowNavigation op = false -> seenSt = st).
Proof.
  intros (Hdis & Hmode & Hanchor)%mutating_true Hshape.
  destruct op as [itemId multiple|start end_|itemId|itemId|itemId| |cur next];
    cbn [perform modeAllows anchorAllows isArrowNavigation] in *.
  - rewrite selectItem_run by done. cbv zeta.
    give_outcome. split; [|done].
    unfold wellShaped. cbn [selectedItems].
    destruct (multiSelect params), multiple,
      (isItemSelected (selectedItems st) itemId); done.
  - rewrite selectRange_run by done. cbv zeta.
    give_outcome.
    split; [|done]. unfold wellShaped. by rewrite Hmode.
  - apply bool_decide_eq_true in Hanchor as [anchor Hanchor].
    unfold expandSelectionRange. run_binds. rewrite Hanchor.
    destruct (findOrderInTremauxTree instance itemId anchor) as [start end_].
    rewrite selectRange_run by done. cbv zeta. rewrite app_nil_l.
    give_outcome.
    split; [|done]. unfold wellShaped. by rewrite Hmode.
  - unfold selectRangeFromStartToItem.
    rewrite selectRange_run by done. cbv zeta.
    give_outcome.
    split; [|done]. unfold wellShaped. by rewrite Hmode.
  - unfold selectRangeFromItemToEnd.
    rewrite selectRange_run by done. cbv zeta.
    give_outcome.
    split; [|done]. unfold wellShaped. by rewrite Hmode.
  - rewrite selectAllNavigableItems_run by done. cbv zeta.
    give_outcome.
    split; [|done]. unfold wellShaped. by rewrite Hmode.
  - rewrite selectItemFromArrowNavigation_run by done. cbv zeta.
    give_outcome.
    split; [|done]. unfold wellShaped. by rewrite Hmode.
Qed.

(** An operation stopped by a guard returns at once: same triple, no
    callback. *)
Lemma perform_skipped (params : Params) (instance : Instance) (st : State)
    (op : Operation) :
  mutating params st op = false ->
  performOn params instance op st = Returned tt st [].
Proof.
  unfold mutating. intros Hskip.
  destruct op as [itemId multiple|start end_|itemId|itemId|itemId| |cur next];
    cbn [perform modeAllows anchorAllows] in *.
  - apply selectItem_disabled.
    by destruct (disableSelection params).
  - apply selectRange_skipped.
    by destruct (disableSelection params), (multiSelect params).
  - unfold expandSelectionRange. run_binds.
    destruct (lastSelectedItem st) as [anchor|] eqn:Hanchor; [|done].
    rewrite selectRange_skipped; [done|].
    rewrite bool_decide_eq_true_2 in Hskip by done.
    by destruct (disableSelection params), (multiSelect params).
  - apply selectRange_skipped.
    by destruct (disableSelection params), (multiSelect params).
  - apply selectRange_skipped.
    by destruct (disableSelection params), (multiSelect params).
  - apply selectAllNavigableItems_skipped.
    by destruct (disableSelection params), (multiSelect params).
  - apply selectItemFromArrowNavigation_skipped.
    by destruct (disableSelection params), (multiSelect params).
Qed.

End PerformFacts.

(** ** The operations when a tree utility may fail *)

Section FallibleFacts.

Context {Instance : Type}.
Variable getNonDisabledItemsInRange :
  Instance -> option string -> option string -> Answer (list string).
Variable getAllNavigableItems : Instance -> Answer (list string).
Variable findOrderInTremauxTree :
  Instance -> string -> string -> Answer (option string * option string).
Variable getFirstNavigableItem : Instance -> Answer (option string).
Variable getLastNavigableItem : Instance -> Answer (option string).

Local Abbreviation falliblePerform :=
  (Fallible.perform getNonDisabledItemsInRange getAllNavigableItems
     findOrderInTremauxTree getFirstNavigableItem getLastNavigableItem).
Local Abbreviation utilitiesAnswer :=
  (Fallible.utilitiesAnswer getNonDisabledItemsInRange getAllNavigableItems
     findOrderInTremauxTree getFirstNavigableItem getLastNavigableItem).
Local Abbreviation rangeAnswers :=
  (Fallible.rangeAnswers getNonDisabledItemsInRange).

Lemma rangeAnswers_true (params : Params) (instance : Instance)
    (range_ends : option string * option string) :
  rangeAnswers params instance range_ends = true ->
  exists range,
    disableSelection params || negb (multiSelect params) = true
    \/ getNonDisabledItemsInRange instance range_ends.1 range_ends.2 = Gives range.
Proof.
  unfold Fallible.rangeAnswers. intros [Hgate|Hgives]%orb_prop.
  - exists []. by left.
  - destruct (getNonDisabledItemsInRange instance range_ends.1 range_ends.2)
      as [range|]; [|done].
    exists range. by right.
Qed.

Lemma rangeAnswers_false (params : Params) (instance : Instance)
    (range_ends : option string * option string) :
  rangeAnswers params instance range_ends = false ->
  disableSelection params || negb (multiSelect params) = false
  /\ getNonDisabledItemsInRange instance range_ends.1 range_ends.2 = Fails.
Proof.
  unfold Fallible.rangeAnswers. intros [Hgate Hgives]%orb_false_iff.
  split; [done|].
  by destruct (getNonDisabledItemsInRange instance range_ends.1 range_ends.2).
Qed.

(** With the answer of the range utility, [selectRange] is the operation
    of the plugin whose utility gives that answer. *)
Lemma fallible_selectRange_answers (params : Params) (instance : Instance)
    (st : State) (range_ends : option string * option string)
    (range : list string) (start end_ : string) :
  disableSelection params || negb (multiSelect params) = true
  \/ getNonDisabledItemsInRange instance range_ends.1 range_ends.2 = Gives range ->
  Fallible.selectRange getNonDisabledItemsInRange params instance range_ends st
  = selectRange (fun _ _ _ => range) params instance (start, end_) st.
Proof.
  intros Hanswer. destruct range_ends as [first last].
  unfold Fallible.selectRange, selectRange.
  destruct (disableSelection params || negb (multiSelect params)); [done|].
  destruct Hanswer as [?|Hgives]; [done|]. cbn [fst snd] in Hgives.
  run_binds. rewrite Hgives. cbn [call]. unfold ret. cbv beta iota.
  by destruct (setSelectedItems params _ st).
Qed.

Lemma fallible_selectRange_fails (params : Params) (instance : Instance)
    (st : State) (range_ends : option string * option string) :
  disableSelection params || negb (multiSelect params) = false ->
  getNonDisabledItemsInRange instance range_ends.1 range_ends.2 = Fails ->
  Fallible.selectRange getNonDisabledItemsInRange params instance range_ends st
  = Threw st [].
Proof.
  intros Hgate Hfails. destruct range_ends as [first last].
  cbn [fst snd] in Hfails. unfold Fallible.selectRange.
  rewrite Hgate. run_binds. by rewrite Hfails.
Qed.

Lemma fallible_selectAll_answers (params : Params) (instance : Instance)
    (st : State) (navigableItems : list string) :
  disableSelection params || negb (multiSelect params) = true
  \/ getAllNavigableItems instance = Gives navigableItems ->
  Fallible.selectAllNavigableItems getAllNavigableItems params instance st
  = selectAllNavigableItems (fun _ => navigableItems) params instance st.
Proof.
  intros Hanswer.
  unfold Fallible.selectAllNavigableItems, selectAllNavigableItems.
  destruct (disableSelection params || negb (multiSelect params)); [done|].
  destruct Hanswer as [?|Hgives]; [done|].
  run_binds. rewrite Hgives. cbn [call]. unfold ret. cbv beta iota.
  by destruct (setSelectedItems params _ st).
Qed.

(** When every utility it calls answers, the operation is the operation of
    the plugin over utilities that give those answers. *)
Lemma fallible_perform_answers (params : Params) (instance : Instance)
    (st : State) (op : Operation) :
  utilitiesAnswer params instance st op = true ->
  exists (getRange : Instance -> string -> string -> list string)
         (getAll : Instance -> list string)
         (findOrd : Instance -> string -> string -> string * string)
         (getFirst getLast : Instance -> string),
    falliblePerform params instance op st
    = perform getRange getAll findOrd getFirst getLast params instance op st.
Proof.
  intros Hanswer.
  destruct op as [itemId multiple|start end_|itemId|itemId|itemId| |cur next];
    cbn [Fallible.perform Fallible.utilitiesAnswer perform] in *.
  - by exists (fun _ _ _ => []), (fun _ => []), (fun _ _ _ => ("", "")),
      (fun _ => ""), (fun _ => "").
  - apply rangeAnswers_true in Hanswer as [range Hrange].
    exists (fun _ _ _ => range), (fun _ => []), (fun _ _ _ => ("", "")),
      (fun _ => ""), (fun _ => "").
    by apply fallible_selectRange_answers.
  - unfold Fallible.expandSelectionRange, expandSelectionRange.
    destruct (lastSelectedItem st) as [anchor|] eqn:Hanchor.
    + destruct (findOrderInTremauxTree instance itemId anchor)
        as [range_ends|] eqn:Horder; [|done].
      apply rangeAnswers_true in Hanswer as [range Hrange].
      exists (fun _ _ _ => range), (fun _ => []), (fun _ _ _ => ("", "")),
        (fun _ => ""), (fun _ => "").
      run_binds. rewrite Hanchor, Horder. cbn [call]. unfold ret.
      cbv beta iota.
      rewrite (fallible_selectRange_answers _ _ _ _ range "" "") by done.
      by destruct (selectRange _ params instance ("", "") st).
    + exists (fun _ _ _ => []), (fun _ => []), (fun _ _ _ => ("", "")),
        (fun _ => ""), (fun _ => "").
      run_binds. by rewrite Hanchor.
  - unfold Fallible.selectRangeFromStartToItem, selectRangeFromStartToItem.
    destruct (getFirstNavigableItem instance) as [first|] eqn:Hfirst; [|done].
    apply rangeAnswers_true in Hanswer as [range Hrange].
    exists (fun _ _ _ => range), (fun _ => []), (fun _ _ _ => ("", "")),
      (fun _ => ""), (fun _ => "").
    run_binds. rewrite ?Hfirst. cbn [call]. unfold ret. cbv beta iota.
    rewrite (fallible_selectRange_answers _ _ _ _ range "" itemId) by done.
    by destruct (selectRange _ params instance ("", itemId) st).
  - unfold Fallible.selectRangeFromItemToEnd, selectRangeFromItemToEnd.
    destruct (getLastNavigableItem instance) as [last|] eqn:Hlast; [|done].
    apply rangeAnswers_true in Hanswer as [range Hrange].
    exists (fun _ _ _ => range), (fun _ => []), (fun _ _ _ => ("", "")),
      (fun _ => ""), (fun _ => "").
    run_binds. rewrite ?Hlast. cbn [call]. unfold ret. cbv beta iota.
    rewrite (fallible_selectRange_answers _ _ _ _ range itemId "") by done.
    by destruct (selectRange _ params instance (itemId, "") st).
  - assert (exists navigableItems,
               disableSelection params || negb (multiSelect params) = true
               \/ getAllNavigableItems instance = Gives navigableItems)
      as [navigableItems Hall].
    { apply orb_prop in Hanswer as [Hgate|Hgives]; [exists []; by left|].
      destruct (getAllNavigableItems instance) as [navigableItems|]; [|done].
      exists navigableItems. by right. }
    exists (fun _ _ _ => []), (fun _ => navigableItems), (fun _ _ _ => ("", "")),
      (fun _ => ""), (fun _ => "").
    by apply fallible_selectAll_answers.
  - by exists (fun _ _ _ => []), (fun _ => []), (fun _ _ _ => ("", "")),
      (fun _ => ""), (fun _ => "").
Qed.

(** When a utility it calls fails, the operation throws with the triple as
    it was and no callback made. *)
Lemma fallible_perform_fails (params : Params) (instance : Instance)
    (st : State) (op : Operation) :
  utilitiesAnswer params instance st op = false ->
  falliblePerform params instance op st = Threw st [].
Proof.
  intros Hanswer.
  destruct op as [itemId multiple|start end_|itemId|itemId|itemId| |cur next];
    cbn [Fallible.perform Fallible.utilitiesAnswer] in *; try done.
  - apply rangeAnswers_false in Hanswer as [Hgate Hfails].
    by apply fallible_selectRange_fails.
  - unfold Fallible.expandSelectionRange. run_binds.
    destruct (lastSelectedItem st) as [anchor|]; [|done].
    destruct (findOrderInTremauxTree instance itemId anchor)
      as [range_ends|]; [|done].
    apply rangeAnswers_false in Hanswer as [Hgate Hfails].
    cbn [call]. unfold ret. cbv beta iota.
    by rewrite fallible_selectRange_fails.
  - unfold Fallible.selectRangeFromStartToItem. run_binds.
    destruct (getFirstNavigableItem instance) as [first|]; [|done].
    apply rangeAnswers_false in Hanswer as [Hgate Hfails].
    cbn [call]. unfold ret. cbv beta iota.
    by rewrite fallible_selectRange_fails.
  - unfold Fallible.selectRangeFromItemToEnd. run_binds.
    destruct (getLastNavigableItem instance) as [last|]; [|done].
    apply rangeAnswers_false in Hanswer as [Hgate Hfails].
    cbn [call]. unfold ret. cbv beta iota.
    by rewrite fallible_selectRange_fails.
  - apply orb_false_iff in Hanswer as [Hgate Hfails].
    unfold Fallible.selectAllNavigableItems. rewrite Hgate. run_binds.
    by destruct (getAllNavigableItems instance).
Qed.

End FallibleFacts.

(** ** The scenarios of the test suite *)

(** A click is [selectItem] and a shift-click [expandSelectionRange]. *)
Example shift_click_on_clean_tree :
  performOnTree multiParams cleanTree (ExpandSelectionRange "one")
    (emptyState (SelMany []))
  = Returned tt (emptyState (SelMany [])) [].
Proof. reflexivity. Qed.

Example shift_click_in_nested_tree :
  selectedItems
    (finalState
       (performSeriesOnTree multiParams
          [(nestedTree, SelectItem "1.1.1" false);
           (nestedTree, ExpandSelectionRange "2")]
          (emptyState (SelMany []))))
  = SelMany ["1.1.1"; "2"].
Proof. by vm_compute. Qed.

Example shift_click_after_swap :
  notifications
    (performSeriesOnTree multiParams
       [(swappedTree, SelectItem "1" false);
        (swappedTree, ExpandSelectionRange "3")]
       (emptyState (SelMany [])))
  = [toggle true "1"; SelectedItemsChange (SelMany ["1"]);
     toggle true "3"; SelectedItemsChange (SelMany ["1"; "3"])].
Proof. by vm_compute. Qed.

(** The order oracle has no result for an anchor that has left the tree:
    the shift-click throws, with the triple as it was. *)
Example shift_click_with_anchor_outside_tree :
  performOnTree multiParams cleanTree (ExpandSelectionRange "one")
    (mkState (Some "gone") ∅ (SelMany ["gone"]))
  = Threw (mkState (Some "gone") ∅ (SelMany ["gone"])) [].
Proof. by vm_compute. Qed.

(** Outside the data model the plugin can throw: in multi mode with the
    toggle callback, a value that is not a sequence has no [filter].  The
    arrow step has by then written the lookup. *)
Example arrow_step_throws_on_null_value :
  selectItemFromArrowNavigation multiParams "1" "2" (emptyState SelNull)
  = Threw (mkState None (objectOfTwo "1" "2") SelNull) [].
Proof. by vm_compute. Qed.

(** * The claims *)

(** ** The selected set *)

Lemma appearsIn_convert (itemId : string) (value : SelectedItems) :
  appearsIn itemId value <-> itemId ∈ convertSelectedItemsToArray value.
Proof.
  destruct value as [|x|ids]; cbn [appearsIn convertSelectedItemsToArray].
  - split; [done|]. apply not_elem_of_nil.
  - rewrite list_elem_of_singleton. split; congruence.
  - done.
Qed.

(** C8.  For every value of the model (null, one id, or a sequence of ids)
    and every id, [isItemSelected] answers true exactly when the id appears
    in the value; since the selected set is derived from the value, this
    also holds in the state every operation ends in. *)
Theorem isItemSelected_iff_appears :
  (forall (value : SelectedItems) (itemId : string),
      isItemSelected value itemId = true <-> appearsIn itemId value)
  /\ (forall (Instance : Type)
        (getNonDisabledItemsInRange : Instance -> string -> string -> list string)
        (getAllNavigableItems : Instance -> list string)
        (findOrderInTremauxTree : Instance -> string -> string -> string * string)
        (getFirstNavigableItem getLastNavigableItem : Instance -> string)
        (params : Params) (instance : Instance) (op : Operation) (st : State)
        (itemId : string),
        let st' := finalState
                     (perform getNonDisabledItemsInRange getAllNavigableItems
                        findOrderInTremauxTree getFirstNavigableItem
                        getLastNavigableItem params instance op st) in
        isItemSelected (selectedItems st') itemId = true
        <-> appearsIn itemId (selectedItems st')).
Proof.
  assert (forall value itemId,
             isItemSelected value itemId = true <-> appearsIn itemId value) as Hiff.
  { intros value itemId.
    by rewrite isItemSelected_convert, bool_decide_eq_true, appearsIn_convert. }
  split; [exact Hiff|]. intros. apply Hiff.
Qed.

(** ** Range selection *)

Lemma keptOutsideLastRange_own (st : State) :
  ordinary (lastSelectedRange st) = false
  \/ Forall (fun id => inherited id = false)
       (convertSelectedItemsToArray (selectedItems st)) ->
  keptOutsideLastRange st
  = filter (fun id => own (lastSelectedRange st) !! id ≠ Some true)
      (convertSelectedItemsToArray (selectedItems st)).
Proof.
  intros Hplain. unfold keptOutsideLastRange.
  destruct (0 <? keysLength (lastSelectedRange st)) eqn:Hkeys.
  - induction (convertSelectedItemsToArray (selectedItems st)) as [|x items IH];
      [done|].
    assert (truthy (lastSelectedRange st) x
            = bool_decide (own (lastSelectedRange st) !! x = Some true)) as Hx.
    { apply truthy_own. destruct Hplain as [?|Hall]; [by left|right].
      by apply Forall_cons in Hall as [? _]. }
    assert (ordinary (lastSelectedRange st) = false
            \/ Forall (fun id => inherited id = false) items) as Hrest.
    { destruct Hplain as [?|Hall]; [by left|right].
      by apply Forall_cons in Hall as [_ ?]. }
    rewrite !filter_cons, (IH Hrest), Hx.
    destruct (decide (own (lastSelectedRange st) !! x = Some true)) as [Hown|Hown].
    + rewrite bool_decide_eq_true_2 by done.
      rewrite decide_False by done. by rewrite decide_False by (by intros ?).
    + rewrite bool_decide_eq_false_2 by done.
      rewrite decide_True by done. by rewrite decide_True by done.
  - apply Nat.ltb_ge in Hkeys.
    assert (own (lastSelectedRange st) = ∅) as Hempty.
    { apply keysLength_zero, Nat.eqb_eq. lia. }
    symmetry. apply filter_all, Forall_forall. intros x _.
    by rewrite Hempty, lookup_empty.
Qed.

(** C1 fails on the code for an id that names an inherited property.  The
    arrow step leaves its literal, an ordinary object, as the last range
    lookup; line 106 then reads [lastSelectedRange.current["constructor"]]
    as true although the id is no key of the lookup, and [selectRange]
    takes the selected item [constructor] out of the value. *)
Theorem selectRange_drops_inherited_name :
  let st0 := finalState (selectItem multiParams "constructor" false
                           (emptyState (SelMany []))) in
  let st := finalState (selectItemFromArrowNavigation multiParams "1" "2" st0) in
  let out := selectRange rangeBetween multiParams sampleTree ("2", "4") st in
  selectedItems st = SelMany ["constructor"; "2"]
  /\ dom (lastSelectedRange st) = {["1"; "2"]}
  /\ rangeBetween sampleTree "2" "4" = ["2"; "4"]
  /\ selectedItems (finalState out) = SelMany ["2"; "4"]
  /\ selectedItems (finalState out) ≠ SelMany ["constructor"; "2"; "4"].
Proof.
  intros st0 st out. split_and!.
  - by vm_compute.
  - by vm_compute.
  - by vm_compute.
  - by vm_compute.
  - vm_compute. discriminate.
Qed.

(** In multi mode with selection enabled, [selectRange] hands over the ids
    it keeps of the current value followed by the ids of the computed
    range that are not among them; afterwards the lookup is the one built
    from the new range, with exactly its ids as keys, and the anchor is the
    same.  It keeps every id
    when the last range lookup has no own key, and else the ids that the
    lookup does not read as true; these are the ids that are no key of
    the lookup when the lookup is a set of ids or no selected id names an
    inherited property.  In single mode or with selection disabled the
    triple is unchanged and nothing is notified. *)
Theorem selectRange_replaces_last_range {Instance : Type}
    (getNonDisabledItemsInRange : Instance -> string -> string -> list string)
    (params : Params) (instance : Instance) (st : State) (start end_ : string) :
  let out := selectRange getNonDisabledItemsInRange params instance (start, end_) st in
  let range := getNonDisabledItemsInRange instance start end_ in
  let items := convertSelectedItemsToArray (selectedItems st) in
  let kept := keptOutsideLastRange st in
  (disableSelection params = false -> multiSelect params = true ->
   wellShaped params st = true ->
     returns out = true
     /\ selectedItems (finalState out)
        = SelMany (kept ++ filter (fun id => id ∉ kept) range)
     /\ (ordinary (lastSelectedRange st) = false
         \/ Forall (fun id => inherited id = false) items ->
         kept = filter (fun id => own (lastSelectedRange st) !! id ≠ Some true) items)
     /\ lastSelectedRange (finalState out) = getLookupFromArray range
     /\ dom (lastSelectedRange (finalState out)) = list_to_set range
     /\ lastSelectedItem (finalState out) = lastSelectedItem st)
  /\ (disableSelection params = true \/ multiSelect params = false ->
      out = Returned tt st []).
Proof.
  intros out range items kept. split.
  - intros Hdis Hmulti Hshape. subst out.
    rewrite selectRange_run by done. cbv zeta.
    cbn [returns finalState selectedItems lastSelectedRange lastSelectedItem].
    split_and!; try done.
    + apply keptOutsideLastRange_own.
    + apply dom_getLookupFromArray.
  - intros Hgate. apply selectRange_skipped.
    destruct Hgate as [-> | ->]; [done|]. apply orb_true_r.
Qed.

(** C7.  In multi mode with selection enabled, [selectAllNavigableItems]
    makes the value the navigable ids the tree gives, in its order, makes
    the lookup the set of those ids, and keeps the anchor.  In single mode
    or with selection disabled the triple is unchanged and nothing is
    notified. *)
Theorem selectAllNavigableItems_selects_all {Instance : Type}
    (getAllNavigableItems : Instance -> list string)
    (params : Params) (instance : Instance) (st : State) :
  let out := selectAllNavigableItems getAllNavigableItems params instance st in
  let navigableItems := getAllNavigableItems instance in
  (disableSelection params = false -> multiSelect params = true ->
   wellShaped params st = true ->
     returns out = true
     /\ selectedItems (finalState out) = SelMany navigableItems
     /\ dom (lastSelectedRange (finalState out)) = list_to_set navigableItems
     /\ (forall id, truthy (lastSelectedRange (finalState out)) id
                    = bool_decide (id ∈ navigableItems))
     /\ lastSelectedItem (finalState out) = lastSelectedItem st)
  /\ (disableSelection params = true \/ multiSelect params = false ->
      out = Returned tt st []).
Proof.
  intros out navigableItems. split.
  - intros Hdis Hmulti Hshape. subst out.
    rewrite selectAllNavigableItems_run by done. cbv zeta.
    cbn [returns finalState selectedItems lastSelectedRange lastSelectedItem].
    split_and!; try done.
    + apply dom_getLookupFromArray.
    + intros id. apply truthy_getLookupFromArray.
  - intros Hgate. apply selectAllNavigableItems_skipped.
    destruct Hgate as [-> | ->]; [done|]. apply orb_true_r.
Qed.

(** ** The arrow step *)

Lemma arrowStep_no_keys (lookup : LookupObject) (items : list string)
    (currentItem nextItem : string) :
  keysLength lookup = 0 ->
  arrowStep lookup items currentItem nextItem
  = (objectOfTwo currentItem nextItem, items ++ [nextItem]).
Proof. intros Hkeys. unfold arrowStep. by rewrite Hkeys. Qed.

Lemma arrowStep_keys (lookup : LookupObject) (items : list string)
    (currentItem nextItem : string) :
  keysLength lookup ≠ 0 ->
  arrowStep lookup items currentItem nextItem
  = let lookup1 := if truthy lookup currentItem then lookup else ∅ in
    if truthy lookup1 nextItem
    then (deleteProperty lookup1 currentItem,
          filter (fun id => id ≠ currentItem) items)
    else (assignTrue lookup1 nextItem, items ++ [nextItem]).
Proof.
  intros Hkeys. unfold arrowStep.
  destruct (keysLength lookup =? 0) eqn:Hzero.
  - by apply Nat.eqb_eq in Hzero.
  - by destruct (truthy lookup currentItem).
Qed.

Lemma truthy_empty_object (itemId : string) : truthy ∅ itemId = inherited itemId.
Proof.
  unfold truthy. change (own ∅) with (∅ : gmap string bool).
  by rewrite lookup_empty.
Qed.

Lemma inherited_proto : inherited "__proto__" = true.
Proof. reflexivity. Qed.

Lemma assignTrue_insert (lookup : LookupObject) (itemId : string) :
  ordinary lookup = false \/ inherited itemId = false ->
  assignTrue lookup itemId
  = mkLookup (<[itemId := true]> (own lookup)) (ordinary lookup).
Proof.
  intros Hplain. unfold assignTrue.
  destruct Hplain as [-> | Hname]; [done|].
  destruct (decide (itemId = "__proto__")) as [->|Hne].
  - by rewrite inherited_proto in Hname.
  - rewrite (bool_decide_eq_false_2 (itemId = "__proto__")) by done.
    by rewrite andb_false_r.
Qed.

(** C2 fails on the code for an id that names an inherited property.
    After the arrow step from 1 to 2 the lookup is the literal with the
    keys 1 and 2, an ordinary object; on the step from 2 to the item
    [constructor] line 164 reads [lastSelectedRange.current["constructor"]]
    as true although the id is no key of the lookup, and the step retreats:
    it takes 2 out of the selection and out of the lookup, and does not
    add the next item to either. *)
Theorem arrow_step_retreats_on_inherited_name :
  let st0 := mkState (Some "1") ∅ (SelMany ["1"]) in
  let st := finalState (selectItemFromArrowNavigation multiParams "1" "2" st0) in
  let out := selectItemFromArrowNavigation multiParams "2" "constructor" st in
  selectedItems st = SelMany ["1"; "2"]
  /\ dom (lastSelectedRange st) = {["1"; "2"]}
  /\ selectedItems (finalState out) = SelMany ["1"]
  /\ dom (lastSelectedRange (finalState out)) = {["1"]}
  /\ selectedItems (finalState out) ≠ SelMany ["1"; "2"; "constructor"].
Proof.
  intros st0 st out. split_and!.
  - by vm_compute.
  - by vm_compute.
  - by vm_compute.
  - by vm_compute.
  - vm_compute. discriminate.
Qed.

(** In multi mode with selection enabled the arrow step does this: when
    the lookup has no own key, [nextItem] is appended to the selection and
    the lookup becomes the literal of the two ids; otherwise the lookup is
    first replaced by the empty object when it does not read [currentItem]
    as true, and then, if it reads [nextItem] as true, [currentItem]
    leaves the selection and the lookup, else [nextItem] is appended to
    the selection and assigned in the lookup.  After the forward steps 1
    to 2 and 2 to 3, the step from 3 to 2 removes 3 from both and leaves 1
    and 2 selected. *)
Theorem arrow_step_extends_or_retreats (params : Params) (st : State)
    (currentItem nextItem : string) :
  disableSelection params = false -> multiSelect params = true ->
  wellShaped params st = true ->
  let out := selectItemFromArrowNavigation params currentItem nextItem st in
  let items := convertSelectedItemsToArray (selectedItems st) in
  let lookup := lastSelectedRange st in
  let lookup1 := if truthy lookup currentItem then lookup else ∅ in
  returns out = true
  /\ (keysLength lookup = 0 ->
      selectedItems (finalState out) = SelMany (items ++ [nextItem])
      /\ lastSelectedRange (finalState out) = objectOfTwo currentItem nextItem)
  /\ (keysLength lookup ≠ 0 -> truthy lookup1 nextItem = true ->
      selectedItems (finalState out)
      = SelMany (filter (fun id => id ≠ currentItem) items)
      /\ lastSelectedRange (finalState out) = deleteProperty lookup1 currentItem)
  /\ (keysLength lookup ≠ 0 -> truthy lookup1 nextItem = false ->
      selectedItems (finalState out) = SelMany (items ++ [nextItem])
      /\ lastSelectedRange (finalState out) = assignTrue lookup1 nextItem)
  /\ (let st0 := mkState (Some "1") ∅ (SelMany ["1"]) in
      let st1 := finalState (selectItemFromArrowNavigation multiParams "1" "2" st0) in
      let st2 := finalState (selectItemFromArrowNavigation multiParams "2" "3" st1) in
      let st3 := finalState (selectItemFromArrowNavigation multiParams "3" "2" st2) in
      selectedItems st2 = SelMany ["1"; "2"; "3"]
      /\ dom (lastSelectedRange st2) = {["1"; "2"; "3"]}
      /\ selectedItems st3 = SelMany ["1"; "2"]
      /\ dom (lastSelectedRange st3) = {["1"; "2"]}
      /\ lastSelectedItem st3 = Some "1").
Proof.
  intros Hdis Hmulti Hshape out items lookup lookup1. subst out.
  rewrite selectItemFromArrowNavigation_run by done. cbv zeta.
  cbn [returns finalState selectedItems lastSelectedRange].
  fold items lookup. split_and!.
  - done.
  - intros Hkeys. by rewrite arrowStep_no_keys.
  - intros Hkeys Hnext. rewrite arrowStep_keys by done. cbv zeta.
    fold lookup1. by rewrite Hnext.
  - intros Hkeys Hnext. rewrite arrowStep_keys by done. cbv zeta.
    fold lookup1. by rewrite Hnext.
  - by vm_compute.
  - by vm_compute.
  - by vm_compute.
  - by vm_compute.
  - by vm_compute.
Qed.

Lemma arrow_step_extends_or_retreats_witness :
  let st := mkState (Some "1") (getLookupFromArray ["1"; "2"; "3"])
              (SelMany ["1"; "2"; "3"]) in
  let out := selectItemFromArrowNavigation multiParams "3" "2" st in
  disableSelection multiParams = false /\ multiSelect multiParams = true
  /\ wellShaped multiParams st = true
  /\ returns out = true
  /\ selectedItems (finalState out) = SelMany ["1"; "2"].
Proof.
  intros st out.
  split; [reflexivity|]. split; [reflexivity|]. split; [reflexivity|].
  destruct (arrow_step_extends_or_retreats multiParams st "3" "2"
              eq_refl eq_refl eq_refl) as (Hret & _ & Hback & _).
  split; [exact Hret|].
  destruct Hback as [Hvalue _].
  - vm_compute. discriminate.
  - reflexivity.
  - exact Hvalue.
Defined.

(** C10 fails on the code for an id that names an inherited property.
    With the keys 1 and 2 in the lookup, an ordinary object, the arrow
    step from the item [constructor] reads
    [lastSelectedRange.current["constructor"]] as true at line 160, so
    the lookup is not reset although it does not contain the current item;
    and the step from 5 to the item [constructor] resets the lookup and
    then reads the inherited name in the empty object as true at line 164,
    so it retreats and records nothing. *)
Theorem arrow_step_restart_misses_inherited_name :
  let st0 := mkState (Some "1") ∅ (SelMany ["1"]) in
  let st := finalState (selectItemFromArrowNavigation multiParams "1" "2" st0) in
  let outCurrent := selectItemFromArrowNavigation multiParams "constructor" "2" st in
  let outNext := selectItemFromArrowNavigation multiParams "5" "constructor" st in
  dom (lastSelectedRange st) = {["1"; "2"]}
  /\ dom (lastSelectedRange (finalState outCurrent)) = {["1"; "2"]}
  /\ dom (lastSelectedRange (finalState outCurrent)) ≠ {["2"]}
  /\ dom (lastSelectedRange (finalState outNext)) = ∅
  /\ dom (lastSelectedRange (finalState outNext)) ≠ {["constructor"]}.
Proof.
  intros st0 st outCurrent outNext. split_and!.
  - by vm_compute.
  - by vm_compute.
  - vm_compute. discriminate.
  - by vm_compute.
  - vm_compute. discriminate.
Qed.

(** When the lookup has own keys and does not read [currentItem] as true,
    the arrow step replaces it by the empty object and, for a [nextItem]
    that names no inherited property, records only [nextItem]; when the
    lookup has no own key the step records [currentItem] and [nextItem].
    The two ways to start a range leave different lookups: the first
    lacks [currentItem] (when it differs from [nextItem]) and the second
    holds it. *)
Theorem arrow_step_restart_records_next_only (params : Params) (st : State)
    (currentItem nextItem : string) :
  disableSelection params = false -> multiSelect params = true ->
  wellShaped params st = true ->
  let out := selectItemFromArrowNavigation params currentItem nextItem st in
  (keysLength (lastSelectedRange st) ≠ 0 ->
   truthy (lastSelectedRange st) currentItem = false ->
   inherited nextItem = false ->
     lastSelectedRange (finalState out) = mkLookup (<[nextItem := true]> ∅) true
     /\ (currentItem ≠ nextItem ->
         own (lastSelectedRange (finalState out)) !! currentItem = None))
  /\ (keysLength (lastSelectedRange st) = 0 ->
      lastSelectedRange (finalState out) = objectOfTwo currentItem nextItem
      /\ truthy (lastSelectedRange (finalState out)) currentItem = true
      /\ truthy (lastSelectedRange (finalState out)) nextItem = true).
Proof.
  intros Hdis Hmulti Hshape out. subst out.
  rewrite selectItemFromArrowNavigation_run by done. cbv zeta.
  cbn [finalState lastSelectedRange]. split.
  - intros Hkeys Hcur Hnext. rewrite arrowStep_keys by done. cbv zeta.
    rewrite Hcur.
    rewrite truthy_empty_object, Hnext.
    cbn [fst]. rewrite assignTrue_insert by (by right).
    split; [done|]. intros Hdiff. cbn [own].
    change (own ∅) with (∅ : gmap string bool).
    by rewrite lookup_insert_ne, lookup_empty.
  - intros Hkeys. rewrite arrowStep_no_keys by done. cbn [fst].
    split; [done|]. unfold truthy, objectOfTwo. cbn [own]. split.
    + destruct (decide (nextItem = currentItem)) as [->|Hdiff].
      * by rewrite lookup_insert_eq.
      * by rewrite lookup_insert_ne, lookup_insert_eq.
    + by rewrite lookup_insert_eq.
Qed.

Lemma arrow_step_restart_records_next_only_witness :
  let st := mkState (Some "1") (getLookupFromArray ["1"; "2"]) (SelMany ["1"; "2"; "5"]) in
  let out := selectItemFromArrowNavigation multiParams "5" "6" st in
  disableSelection multiParams = false /\ multiSelect multiParams = true
  /\ wellShaped multiParams st = true
  /\ keysLength (lastSelectedRange st) ≠ 0
  /\ truthy (lastSelectedRange st) "5" = false
  /\ inherited "6" = false
  /\ lastSelectedRange (finalState out) = mkLookup (<["6" := true]> ∅) true.
Proof.
  intros st out.
  split; [reflexivity|]. split; [reflexivity|]. split; [reflexivity|].
  assert (keysLength (lastSelectedRange st) ≠ 0) as Hkeys
    by (vm_compute; discriminate).
  split; [exact Hkeys|]. split; [reflexivity|]. split; [reflexivity|].
  exact (proj1 (proj1 (arrow_step_restart_records_next_only multiParams st "5" "6"
                         eq_refl eq_refl eq_refl) Hkeys eq_refl eq_refl)).
Defined.

(** ** Discrete selection *)

(** C3, as the claim states it, fails: in single mode [selectItem] with the
    flag [multiple] set takes the additive branch, so that clicking again
    on the selected item hands over the empty sequence and not the id. *)
Lemma selectItem_single_additive_counterexample :
  let out := selectItem singleParams "a" true (emptyState (SelOne "a")) in
  selectedItems (finalState out) = SelMany []
  /\ selectedItems (finalState out) ≠ SelOne "a".
Proof. split; [by vm_compute|]. vm_compute. discriminate. Qed.

(** C3, amended.  With selection disabled [selectItem] returns with the
    triple unchanged.  Otherwise it returns, makes the item the anchor and
    empties the last range lookup, for every value of the flag; in single
    mode with the flag [multiple] unset the value becomes the id, also when
    the id was already the value; and with the flag set the additive branch
    runs whatever the mode: the id is taken out of the sequence when it was
    selected and put in front of it when it was not. *)
Theorem selectItem_replaces_and_anchors (params : Params) (st : State)
    (itemId : string) (multiple : bool) :
  let out := selectItem params itemId multiple st in
  let items := convertSelectedItemsToArray (selectedItems st) in
  (disableSelection params = true -> out = Returned tt st [])
  /\ (disableSelection params = false -> wellShaped params st = true ->
      returns out = true
      /\ lastSelectedItem (finalState out) = Some itemId
      /\ lastSelectedRange (finalState out) = ∅
      /\ (multiSelect params = false -> multiple = false ->
          selectedItems (finalState out) = SelOne itemId)
      /\ (multiple = true ->
          selectedItems (finalState out)
          = if isItemSelected (selectedItems st) itemId
            then SelMany (filter (fun id => id ≠ itemId) items)
            else SelMany (itemId :: items))).
Proof.
  intros out items. split.
  - apply selectItem_disabled.
  - intros Hdis Hshape. subst out. rewrite selectItem_run by done. cbv zeta.
    cbn [returns finalState lastSelectedItem lastSelectedRange selectedItems].
    split_and!; try done.
    + by intros -> ->.
    + by intros ->.
Qed.

Lemma selectItem_replaces_and_anchors_witness :
  let st := mkState (Some "b") (getLookupFromArray ["b"; "c"]) (SelOne "a") in
  let out := selectItem singleParams "a" false st in
  disableSelection singleParams = false /\ wellShaped singleParams st = true
  /\ multiSelect singleParams = false
  /\ finalState out = mkState (Some "a") ∅ (SelOne "a").
Proof.
  intros st out.
  split; [reflexivity|]. split; [reflexivity|]. split; [reflexivity|].
  destruct (proj2 (selectItem_replaces_and_anchors singleParams st "a" false)
              eq_refl eq_refl) as (_ & Hanchor & Hrange & Hvalue & _).
  specialize (Hvalue eq_refl eq_refl).
  fold out in Hanchor, Hrange, Hvalue.
  destruct (finalState out) as [anchor range value].
  cbn [lastSelectedItem lastSelectedRange selectedItems] in *.
  by rewrite Hanchor, Hrange, Hvalue.
Defined.

(** ** Notifications *)

Lemma told_observedAt (st : State) (ns : list Notification) :
  told <$> observedAt st ns = ns.
Proof.
  unfold observedAt. induction ns as [|n ns IH]; [done|].
  cbn [fmap list_fmap told]. f_equal. exact IH.
Qed.

Lemma aggregates_toggle (isSelected : bool) (ids : list string) :
  aggregates (toggle isSelected <$> ids) = [].
Proof.
  unfold aggregates. induction ids as [|id ids IH]; [done|].
  cbn [fmap list_fmap]. by rewrite filter_cons_False.
Qed.

Lemma aggregates_itemToggles (params : Params) (old new : SelectedItems) :
  aggregates (itemToggles params old new) = [].
Proof.
  unfold itemToggles. destruct (multiSelect params).
  - unfold aggregates. rewrite filter_app.
    fold (aggregates (toggle true <$> addedItems (convertSelectedItemsToArray old)
                        (convertSelectedItemsToArray new))).
    fold (aggregates (toggle false <$> removedItems (convertSelectedItemsToArray old)
                        (convertSelectedItemsToArray new))).
    by rewrite !aggregates_toggle.
  - destruct (strictNotEqual new old), (notNull old), (notNull new); reflexivity.
Qed.

Lemma aggregates_expectedNotifications (params : Params) (old new : SelectedItems) :
  onSelectedItemsChange params = true ->
  aggregates (expectedNotifications params old new) = [SelectedItemsChange new].
Proof.
  intros Hchange. unfold expectedNotifications. rewrite Hchange.
  unfold aggregates. rewrite filter_app.
  fold (aggregates (if onItemSelectionToggle params
                    then itemToggles params old new else [])).
  destruct (onItemSelectionToggle params).
  - by rewrite aggregates_itemToggles.
  - reflexivity.
Qed.

(** C4.  In multi mode with both callbacks configured, an operation that
    passes its guards tells the host, in this order: one toggle to true for
    each added id, in the order of the new value; one toggle to false for
    each removed id, in the order of the old value; and then one aggregate
    change that carries the new value. *)
Theorem notifications_added_removed_change {Instance : Type}
    (getNonDisabledItemsInRange : Instance -> string -> string -> list string)
    (getAllNavigableItems : Instance -> list string)
    (findOrderInTremauxTree : Instance -> string -> string -> string * string)
    (getFirstNavigableItem getLastNavigableItem : Instance -> string)
    (params : Params) (instance : Instance) (op : Operation) (st : State) :
  multiSelect params = true ->
  onItemSelectionToggle params = true ->
  onSelectedItemsChange params = true ->
  mutating params st op = true ->
  wellShaped params st = true ->
  let out := perform getNonDisabledItemsInRange getAllNavigableItems
               findOrderInTremauxTree getFirstNavigableItem getLastNavigableItem
               params instance op st in
  let old := convertSelectedItemsToArray (selectedItems st) in
  let new := convertSelectedItemsToArray (selectedItems (finalState out)) in
  returns out = true
  /\ selectedItems st = SelMany old
  /\ selectedItems (finalState out) = SelMany new
  /\ notifications out
     = (toggle true <$> addedItems old new)
       ++ (toggle false <$> removedItems old new)
       ++ [SelectedItemsChange (SelMany new)].
Proof.
  intros Hmulti Htoggle Hchange Hmut Hshape out old new.
  destruct (perform_mutating getNonDisabledItemsInRange getAllNavigableItems
              findOrderInTremauxTree getFirstNavigableItem getLastNavigableItem
              params instance st op Hmut Hshape)
    as (st' & seenSt & Hrun & Hshape' & _).
  subst out new old. rewrite Hrun. unfold notifications.
  cbn [returns finalState callsOf]. rewrite told_observedAt.
  pose proof (wellShaped_multi _ _ Hmulti Hshape) as Hold.
  pose proof (wellShaped_multi _ _ Hmulti Hshape') as Hnew.
  split_and!; try done.
  unfold expectedNotifications, itemToggles.
  rewrite Hmulti, Htoggle, Hchange, <-Hnew. by rewrite <-(assoc_L (++)).
Qed.

Lemma notifications_added_removed_change_witness :
  let st := mkState (Some "2") (getLookupFromArray ["2"; "4"]) (SelMany ["9"; "2"; "4"]) in
  let out := perform rangeBetween allNavigableItems (fun _ a b => (a, b))
               (fun _ => "1") (fun _ => "4")
               multiParams sampleTree (SelectRange "2" "1.1") st in
  multiSelect multiParams = true /\ onItemSelectionToggle multiParams = true
  /\ onSelectedItemsChange multiParams = true
  /\ mutating multiParams st (SelectRange "2" "1.1") = true
  /\ wellShaped multiParams st = true
  /\ notifications out
     = [toggle true "1.1"; toggle true "1.1.1"; toggle false "4";
        SelectedItemsChange (SelMany ["9"; "1.1"; "1.1.1"; "2"])].
Proof.
  intros st out. do 5 (split; [reflexivity|]).
  destruct (notifications_added_removed_change rangeBetween allNavigableItems
              (fun _ a b => (a, b)) (fun _ => "1") (fun _ => "4")
              multiParams sampleTree
              (SelectRange "2" "1.1") st eq_refl eq_refl eq_refl eq_refl eq_refl)
    as (_ & _ & _ & Hnotes).
  etransitivity; [exact Hnotes|]. by vm_compute.
Defined.

(** C9.  With the aggregate callback configured, an operation that passes
    its guards calls it exactly once, with the value it hands to the model,
    also when that value is the current one: selecting again the selected
    item in single mode makes no toggle and still makes the aggregate
    call. *)
Theorem aggregate_change_exactly_once :
  (forall (Instance : Type)
      (getNonDisabledItemsInRange : Instance -> string -> string -> list string)
      (getAllNavigableItems : Instance -> list string)
      (findOrderInTremauxTree : Instance -> string -> string -> string * string)
      (getFirstNavigableItem getLastNavigableItem : Instance -> string)
      (params : Params) (instance : Instance) (op : Operation) (st : State),
      onSelectedItemsChange params = true ->
      mutating params st op = true ->
      wellShaped params st = true ->
      let out := perform getNonDisabledItemsInRange getAllNavigableItems
                   findOrderInTremauxTree getFirstNavigableItem
                   getLastNavigableItem params instance op st in
      returns out = true
      /\ aggregates (notifications out)
         = [SelectedItemsChange (selectedItems (finalState out))])
  /\ (forall (params : Params) (st : State) (itemId : string),
        disableSelection params = false ->
        multiSelect params = false ->
        onSelectedItemsChange params = true ->
        selectedItems st = SelOne itemId ->
        let out := selectItem params itemId false st in
        selectedItems (finalState out) = selectedItems st
        /\ notifications out = [SelectedItemsChange (SelOne itemId)]).
Proof.
  split.
  - intros Instance getRange getAll findOrd getFirst getLast params instance op st
      Hchange Hmut Hshape out.
    destruct (perform_mutating getRange getAll findOrd getFirst getLast
                params instance st op Hmut Hshape)
      as (st' & seenSt & Hrun & _ & _).
    subst out. rewrite Hrun. unfold notifications.
    cbn [returns finalState callsOf]. rewrite told_observedAt.
    split; [done|]. by apply aggregates_expectedNotifications.
  - intros params st itemId Hdis Hsingle Hchange Hvalue out. subst out.
    rewrite selectItem_run by (done || (unfold wellShaped; by rewrite Hsingle)).
    cbv zeta. unfold notifications.
    cbn [finalState callsOf selectedItems]. rewrite told_observedAt.
    rewrite Hsingle, Hvalue. split; [done|].
    unfold expectedNotifications, itemToggles.
    rewrite Hsingle, Hchange. cbn [strictNotEqual].
    rewrite bool_decide_eq_true_2 by done. cbn [negb].
    by destruct (onItemSelectionToggle params).
Qed.

Lemma aggregate_change_exactly_once_witness :
  let st := mkState (Some "a") ∅ (SelOne "a") in
  let out := perform rangeBetween allNavigableItems (fun _ a b => (a, b))
               (fun _ => "1") (fun _ => "4")
               singleParams sampleTree (SelectItem "a" false) st in
  onSelectedItemsChange singleParams = true
  /\ mutating singleParams st (SelectItem "a" false) = true
  /\ wellShaped singleParams st = true
  /\ disableSelection singleParams = false
  /\ multiSelect singleParams = false
  /\ aggregates (notifications out) = [SelectedItemsChange (SelOne "a")]
  /\ notifications out = [SelectedItemsChange (SelOne "a")].
Proof.
  intros st out. do 5 (split; [reflexivity|]). split.
  - exact (proj2 (proj1 aggregate_change_exactly_once TreeIndex rangeBetween
                    allNavigableItems (fun _ a b => (a, b)) (fun _ => "1")
                    (fun _ => "4") singleParams
                    sampleTree (SelectItem "a" false) st eq_refl eq_refl eq_refl)).
  - exact (proj2 (proj2 aggregate_change_exactly_once singleParams st "a"
                    eq_refl eq_refl eq_refl eq_refl)).
Defined.

Lemma selectRange_replaces_last_range_witness :
  let st := mkState (Some "2") (getLookupFromArray ["2"; "4"]) (SelMany ["9"; "2"; "4"]) in
  let out := selectRange rangeBetween multiParams sampleTree ("2", "1.1") st in
  disableSelection multiParams = false /\ multiSelect multiParams = true
  /\ wellShaped multiParams st = true
  /\ selectedItems (finalState out) = SelMany ["9"; "1.1"; "1.1.1"; "2"]
  /\ lastSelectedItem (finalState out) = Some "2"
  /\ disableSelection disabledParams = true
  /\ selectRange rangeBetween disabledParams sampleTree ("2", "1.1") st
     = Returned tt st [].
Proof.
  intros st out. do 3 (split; [reflexivity|]).
  destruct (proj1 (selectRange_replaces_last_range rangeBetween multiParams
                     sampleTree st "2" "1.1") eq_refl eq_refl eq_refl)
    as (_ & Hvalue & _ & _ & _ & Hanchor).
  split; [etransitivity; [exact Hvalue|by vm_compute]|].
  split; [exact Hanchor|]. split; [reflexivity|].
  exact (proj2 (selectRange_replaces_last_range rangeBetween disabledParams
                  sampleTree st "2" "1.1") (or_introl eq_refl)).
Defined.

Lemma selectAllNavigableItems_selects_all_witness :
  let st := mkState (Some "2") ∅ (SelMany ["2"]) in
  let out := selectAllNavigableItems allNavigableItems multiParams sampleTree st in
  disableSelection multiParams = false /\ multiSelect multiParams = true
  /\ wellShaped multiParams st = true
  /\ selectedItems (finalState out) = SelMany ["1"; "1.1"; "1.1.1"; "2"; "4"]
  /\ lastSelectedItem (finalState out) = Some "2"
  /\ multiSelect singleParams = false
  /\ selectAllNavigableItems allNavigableItems singleParams sampleTree st
     = Returned tt st [].
Proof.
  intros st out. do 3 (split; [reflexivity|]).
  destruct (proj1 (selectAllNavigableItems_selects_all allNavigableItems multiParams
                     sampleTree st) eq_refl eq_refl eq_refl)
    as (_ & Hvalue & _ & _ & Hanchor).
  split; [etransitivity; [exact Hvalue|by vm_compute]|].
  split; [exact Hanchor|]. split; [reflexivity|].
  exact (proj2 (selectAllNavigableItems_selects_all allNavigableItems singleParams
                  sampleTree st) (or_intror eq_refl)).
Defined.

(** ** Range symmetry *)

Lemma position_Some (tree : TreeIndex) (itemId : string) (i : nat) :
  position tree itemId = Some i ->
  exists flag, documentOrder tree !! i = Some (itemId, flag).
Proof.
  unfold position. intros ([j [x flag]] & Hfind & Hi)%fmap_Some.
  cbn [fst] in Hi. subst j.
  apply list_find_Some in Hfind as (Hlookup & Hid & _).
  cbn [fst] in Hid. subst x. by exists flag.
Qed.

Lemma position_inj (tree : TreeIndex) (idA idB : string) (i : nat) :
  position tree idA = Some i -> position tree idB = Some i -> idA = idB.
Proof.
  intros [flagA HA]%position_Some [flagB HB]%position_Some.
  rewrite HA in HB. by injection HB.
Qed.

Lemma order_symmetric (tree : TreeIndex) (idA idB : string) :
  order tree idA idB = order tree idB idA.
Proof.
  unfold order.
  destruct (position tree idA) as [i|] eqn:HA,
           (position tree idB) as [j|] eqn:HB; try done.
  f_equal. destruct (decide (i ≤ j)) as [Hij|Hij], (decide (j ≤ i)) as [Hji|Hji].
  - assert (i = j) as -> by lia.
    rewrite (position_inj tree idA idB j HA HB).
    by destruct (bool_decide (j ≤ j)).
  - by rewrite bool_decide_eq_true_2, bool_decide_eq_false_2.
  - by rewrite bool_decide_eq_false_2, bool_decide_eq_true_2.
  - lia.
Qed.

Lemma rangeBetween_symmetric (tree : TreeIndex) (idA idB : string) :
  rangeBetween tree idA idB = rangeBetween tree idB idA.
Proof. unfold rangeBetween. by rewrite order_symmetric. Qed.

Lemma filter_sublist_mono {A} (P : A -> Prop) `{!forall x, Decision (P x)}
    (l1 l2 : list A) :
  l1 `sublist_of` l2 -> filter P l1 `sublist_of` filter P l2.
Proof.
  induction 1 as [|x l1 l2 Hsub IH|x l1 l2 Hsub IH]; [done| |].
  - rewrite !filter_cons. case_decide; [by constructor|done].
  - rewrite filter_cons. case_decide; [by apply sublist_cons|done].
Qed.

Lemma rangeBetween_tree_order (tree : TreeIndex) (idA idB : string) :
  rangeBetween tree idA idB `sublist_of` allNavigableItems tree.
Proof.
  unfold rangeBetween, allNavigableItems, navigableIds.
  destruct (order tree idA idB) as [[first last]|]; [|apply sublist_nil_l].
  destruct (position tree first) as [i|]; [|apply sublist_nil_l].
  destruct (position tree last) as [j|]; [|apply sublist_nil_l].
  apply fmap_sublist, filter_sublist_mono.
  etransitivity; [apply sublist_take|apply sublist_drop].
Qed.

(** C5.  Over the tree index, [selectRange] on (A, B) and on (B, A) ends
    with the same value and the same last range lookup (and tells the host
    the same), for every A and B and every state it starts from: the range
    extracted between two ids is the same sequence, in the order of the
    tree, whichever of them comes first. *)
Theorem selectRange_symmetric (params : Params) (tree : TreeIndex) (st : State)
    (idA idB : string) :
  let outAB := selectRange rangeBetween params tree (idA, idB) st in
  let outBA := selectRange rangeBetween params tree (idB, idA) st in
  rangeBetween tree idA idB = rangeBetween tree idB idA
  /\ rangeBetween tree idA idB `sublist_of` allNavigableItems tree
  /\ selectedItems (finalState outAB) = selectedItems (finalState outBA)
  /\ lastSelectedRange (finalState outAB) = lastSelectedRange (finalState outBA)
  /\ outAB = outBA.
Proof.
  intros outAB outBA.
  assert (outAB = outBA) as Hout.
  { subst outAB outBA. unfold selectRange.
    by rewrite (rangeBetween_symmetric tree idA idB). }
  split; [apply rangeBetween_symmetric|].
  split; [apply rangeBetween_tree_order|]. by rewrite Hout.
Qed.

(** The extracted range on the sample tree: in tree order from either end,
    without the ancestors before the first end and without the disabled
    node. *)
Example rangeBetween_sampleTree :
  rangeBetween sampleTree "4" "1.1.1" = ["1.1.1"; "2"; "4"]
  /\ rangeBetween sampleTree "1.1.1" "4" = ["1.1.1"; "2"; "4"]
  /\ rangeBetween sampleTree "1.1.1" "absent" = [].
Proof. by vm_compute. Qed.

(** ** Atomicity *)

Lemma Forall_observedAt (st : State) (ns : list Notification) :
  Forall (fun c => seen c = st) (observedAt st ns).
Proof. unfold observedAt. apply Forall_fmap, Forall_true. done. Qed.

(** C6, as the claim states it, fails: the arrow step writes the last
    range lookup before [setSelectedItems] calls the callbacks, so they run
    against the new lookup with the old value, a triple that is neither
    the one before nor the one after the step. *)
Lemma arrow_step_not_atomic_counterexample :
  let st := mkState (Some "1") ∅ (SelMany ["1"]) in
  let out := selectItemFromArrowNavigation multiParams "1" "2" st in
  wellShaped multiParams st = true
  /\ seen <$> callsOf out
     = [mkState (Some "1") (objectOfTwo "1" "2") (SelMany ["1"]);
        mkState (Some "1") (objectOfTwo "1" "2") (SelMany ["1"])]
  /\ finalState out
     = mkState (Some "1") (objectOfTwo "1" "2") (SelMany ["1"; "2"])
  /\ ~ atomicRun st out.
Proof.
  intros st out. split; [reflexivity|]. split; [by vm_compute|].
  split; [by vm_compute|].
  intros [_ Hall]. vm_compute in Hall.
  apply Forall_cons in Hall as [[Hseen|Hseen] _]; discriminate Hseen.
Qed.

(** C6, amended.  On a state that fits the data model an operation throws
    only when a tree utility it calls fails; the utilities are called
    before anything is written or notified, so the operation then leaves
    the triple as it was and has made no callback.  Otherwise it returns
    and ends in a state that fits the data model; an operation stopped by
    a guard leaves the triple unchanged and makes no callback; every
    callback of an operation other than the arrow step runs against the
    triple as it was before the operation; and every callback of the
    arrow step runs against the lookup the step ends with and the value as
    it was before. *)
Theorem operations_throw_only_when_utility_fails {Instance : Type}
    (getNonDisabledItemsInRange :
       Instance -> option string -> option string -> Answer (list string))
    (getAllNavigableItems : Instance -> Answer (list string))
    (findOrderInTremauxTree :
       Instance -> string -> string -> Answer (option string * option string))
    (getFirstNavigableItem getLastNavigableItem : Instance -> Answer (option string))
    (params : Params) (instance : Instance) (op : Operation) (st : State) :
  wellShaped params st = true ->
  let out := Fallible.perform getNonDisabledItemsInRange getAllNavigableItems
               findOrderInTremauxTree getFirstNavigableItem getLastNavigableItem
               params instance op st in
  returns out
  = Fallible.utilitiesAnswer getNonDisabledItemsInRange getAllNavigableItems
      findOrderInTremauxTree getFirstNavigableItem getLastNavigableItem
      params instance st op
  /\ (returns out = false -> out = Threw st [])
  /\ wellShaped params (finalState out) = true
  /\ (mutating params st op = false -> returns out = true ->
      out = Returned tt st [])
  /\ (isArrowNavigation op = false ->
      Forall (fun c => seen c = st) (callsOf out)
      /\ (returns out = true -> atomicRun st out))
  /\ (isArrowNavigation op = true ->
      Forall (fun c => seen c = withValue (finalState out) (selectedItems st))
        (callsOf out)).
Proof.
  intros Hshape out. subst out.
  assert (isArrowNavigation op = true ->
          Forall (fun c => seen c
                           = withValue
                               (finalState
                                  (Fallible.perform getNonDisabledItemsInRange
                                     getAllNavigableItems findOrderInTremauxTree
                                     getFirstNavigableItem getLastNavigableItem
                                     params instance op st))
                               (selectedItems st))
            (callsOf (Fallible.perform getNonDisabledItemsInRange
                        getAllNavigableItems findOrderInTremauxTree
                        getFirstNavigableItem getLastNavigableItem
                        params instance op st))) as Hstep.
  { destruct op as [| | | | | |cur next]; try done. intros _.
    cbn [Fallible.perform].
    destruct (disableSelection params || negb (multiSelect params)) eqn:Hgate.
    - rewrite selectItemFromArrowNavigation_skipped by done. by cbn.
    - apply orb_false_iff in Hgate as [Hdis Hmulti%negb_false_iff].
      rewrite selectItemFromArrowNavigation_run by done. cbv zeta.
      cbn [finalState callsOf]. apply Forall_observedAt. }
  revert Hstep.
  destruct (Fallible.utilitiesAnswer getNonDisabledItemsInRange
              getAllNavigableItems findOrderInTremauxTree getFirstNavigableItem
              getLastNavigableItem params instance st op) eqn:Hanswer.
  - destruct (fallible_perform_answers _ _ _ _ _ _ _ _ _ Hanswer)
      as (getRange & getAll & findOrd & getFirst & getLast & ->).
    destruct (mutating params st op) eqn:Hmut.
    + destruct (perform_mutating getRange getAll findOrd getFirst getLast
                  params instance st op Hmut Hshape)
        as (st' & seenSt & -> & Hshape' & Hseen).
      intros Hstep. cbn [returns finalState callsOf]. split_and!; try done; try exact Hstep.
      intros Harrow. rewrite (Hseen Harrow).
      split; [apply Forall_observedAt|]. intros _. unfold atomicRun.
      cbn [returns finalState callsOf]. split; [done|].
      eapply Forall_impl; [apply Forall_observedAt|]. intros c Hc. by left.
    + rewrite perform_skipped by done.
      intros Hstep. cbn [returns finalState callsOf]. unfold atomicRun.
      cbn [returns finalState callsOf]. split_and!; try done; try exact Hstep.
  - rewrite (fallible_perform_fails _ _ _ _ _ _ _ _ _ Hanswer).
    intros Hstep. cbn [returns finalState callsOf]. split_and!; try done; try exact Hstep.
Qed.

Lemma operations_throw_only_when_utility_fails_witness :
  let st := mkState (Some "1.1") ∅ (SelMany ["1.1"]) in
  let unknown := performOnTree multiParams sampleTree (ExpandSelectionRange "unknown") st in
  let known := performOnTree multiParams sampleTree (ExpandSelectionRange "2") st in
  wellShaped multiParams st = true
  /\ unknown = Threw st []
  /\ returns known = true
  /\ Forall (fun c => seen c = st) (callsOf known).
Proof.
  intros st unknown known. split; [reflexivity|].
  destruct (operations_throw_only_when_utility_fails treeRange treeAll treeOrder
              treeFirst treeLast multiParams sampleTree
              (ExpandSelectionRange "unknown") st eq_refl)
    as (Hret & Hthrown & _).
  split; [exact (Hthrown Hret)|].
  destruct (operations_throw_only_when_utility_fails treeRange treeAll treeOrder
              treeFirst treeLast multiParams sampleTree
              (ExpandSelectionRange "2") st eq_refl)
    as (Hret2 & _ & _ & _ & Hcalls & _).
  split; [exact Hret2|]. exact (proj1 (Hcalls eq_refl)).
Defined.

(** * Further properties of the plugin *)

(** ** When [setSelectedItems] returns and when it throws *)

Lemma wellShaped_safeToNotify (params : Params) (st : State) :
  wellShaped params st = true -> safeToNotify params st = true.
Proof.
  unfold wellShaped, safeToNotify.
  by destruct (multiSelect params), (onItemSelectionToggle params),
    (isArray (selectedItems st)).
Qed.

Lemma setSelectedItems_safe (params : Params) (st : State) (new : SelectedItems) :
  safeToNotify params st = true ->
  (multiSelect params = true -> isArray new = true) ->
  setSelectedItems params new st
  = Returned tt (withValue st new)
      (observedAt st (expectedNotifications params (selectedItems st) new)).
Proof.
  intros Hsafe Hnew.
  destruct (onItemSelectionToggle params) eqn:Htoggle.
  - apply setSelectedItems_returns; [|done].
    unfold wellShaped, safeToNotify in *. rewrite Htoggle in Hsafe.
    by destruct (multiSelect params), (isArray (selectedItems st)).
  - unfold setSelectedItems, expectedNotifications. rewrite Htoggle.
    by destruct (onSelectedItemsChange params).
Qed.

Lemma setSelectedItems_throws (params : Params) (st : State) (new : list string) :
  multiSelect params = true -> onItemSelectionToggle params = true ->
  isArray (selectedItems st) = false ->
  setSelectedItems params (SelMany new) st = Threw st [].
Proof.
  intros Hmulti Htoggle Harray. unfold setSelectedItems.
  rewrite Hmulti, Htoggle. run_binds. cbn [asArray]. run_binds.
  by destruct (selectedItems st).
Qed.

Ltac run_safe :=
  rewrite setSelectedItems_safe by (done || (intros _; reflexivity));
  cbv beta iota.

Ltac run_throw :=
  rewrite setSelectedItems_throws by done; cbv beta iota.

Lemma selectItem_run_safe (params : Params) (st : State) (itemId : string)
    (multiple : bool) :
  disableSelection params = false ->
  safeToNotify params st = true ->
  let new :=
    if multiple then
      if isItemSelected (selectedItems st) itemId
      then SelMany (filter (fun id => id ≠ itemId)
                      (convertSelectedItemsToArray (selectedItems st)))
      else SelMany (itemId :: convertSelectedItemsToArray (selectedItems st))
    else if multiSelect params then SelMany [itemId] else SelOne itemId in
  selectItem params itemId multiple st
  = Returned tt (mkState (Some itemId) ∅ new)
      (observedAt st (expectedNotifications params (selectedItems st) new)).
Proof.
  intros Hdis Hsafe new. unfold selectItem. rewrite Hdis. run_binds.
  fold new.
  rewrite setSelectedItems_safe; [|done|].
  - cbv beta iota. unfold setLastSelectedItem, setLastSelectedRange, withValue.
    cbn [lastSelectedItem lastSelectedRange selectedItems].
    by rewrite !app_nil_r.
  - intros Hmulti. subst new. rewrite Hmulti.
    by destruct multiple, (isItemSelected (selectedItems st) itemId).
Qed.

Lemma selectItem_throws (params : Params) (st : State) (itemId : string)
    (multiple : bool) :
  disableSelection params = false ->
  multiSelect params = true -> onItemSelectionToggle params = true ->
  isArray (selectedItems st) = false ->
  selectItem params itemId multiple st = Threw st [].
Proof.
  intros Hdis Hmulti Htoggle Harray. unfold selectItem.
  rewrite Hdis, Hmulti. run_binds.
  destruct multiple, (isItemSelected (selectedItems st) itemId);
    by run_throw.
Qed.

Lemma selectItemFromArrowNavigation_run_safe (params : Params) (st : State)
    (currentItem nextItem : string) :
  disableSelection params = false ->
  multiSelect params = true ->
  safeToNotify params st = true ->
  let step := arrowStep (lastSelectedRange st)
                (convertSelectedItemsToArray (selectedItems st)) currentItem nextItem in
  selectItemFromArrowNavigation params currentItem nextItem st
  = Returned tt (mkState (lastSelectedItem st) step.1 (SelMany step.2))
      (observedAt (mkState (lastSelectedItem st) step.1 (selectedItems st))
         (expectedNotifications params (selectedItems st) (SelMany step.2))).
Proof.
  intros Hdis Hmulti Hsafe step. subst step.
  unfold selectItemFromArrowNavigation, arrowStep.
  rewrite Hdis, Hmulti. cbn [orb negb]. run_binds.
  destruct (keysLength (lastSelectedRange st) =? 0).
  - run_binds. unfold setLastSelectedRange at 1. cbv beta iota.
    run_safe. by rewrite !app_nil_l.
  - run_binds.
    destruct (truthy (lastSelectedRange st) currentItem) eqn:Hcur; cbn [negb];
      [|unfold setLastSelectedRange at 1]; cbv beta iota;
      cbn [lastSelectedItem lastSelectedRange selectedItems].
    + destruct (truthy (lastSelectedRange st) nextItem);
        unfold setLastSelectedRange at 1; cbv beta iota;
        run_safe; by rewrite !app_nil_l.
    + destruct (truthy ∅ nextItem);
        unfold setLastSelectedRange at 1; cbv beta iota;
        run_safe; by rewrite !app_nil_l.
Qed.

Lemma selectItemFromArrowNavigation_throws (params : Params) (st : State)
    (currentItem nextItem : string) :
  disableSelection params = false ->
  multiSelect params = true -> onItemSelectionToggle params = true ->
  isArray (selectedItems st) = false ->
  let step := arrowStep (lastSelectedRange st)
                (convertSelectedItemsToArray (selectedItems st)) currentItem nextItem in
  selectItemFromArrowNavigation params currentItem nextItem st
  = Threw (mkState (lastSelectedItem st) step.1 (selectedItems st)) [].
Proof.
  intros Hdis Hmulti Htoggle Harray step. subst step.
  unfold selectItemFromArrowNavigation, arrowStep.
  rewrite Hdis, Hmulti. cbn [orb negb]. run_binds.
  destruct (keysLength (lastSelectedRange st) =? 0).
  - run_binds. unfold setLastSelectedRange at 1. cbv beta iota.
    by run_throw.
  - run_binds.
    destruct (truthy (lastSelectedRange st) currentItem) eqn:Hcur; cbn [negb];
      [|unfold setLastSelectedRange at 1]; cbv beta iota;
      cbn [lastSelectedItem lastSelectedRange selectedItems].
    + destruct (truthy (lastSelectedRange st) nextItem);
        unfold setLastSelectedRange at 1; cbv beta iota;
        by run_throw.
    + destruct (truthy ∅ nextItem);
        unfold setLastSelectedRange at 1; cbv beta iota;
        by run_throw.
Qed.

Section SafeFacts.

Context {Instance : Type}.
Variable getNonDisabledItemsInRange : Instance -> string -> string -> list string.
Variable getAllNavigableItems : Instance -> list string.

Lemma selectRange_run_safe (params : Params) (instance : Instance) (st : State)
    (start end_ : string) :
  disableSelection params = false ->
  multiSelect params = true ->
  safeToNotify params st = true ->
  let range := getNonDisabledItemsInRange instance start end_ in
  let kept := keptOutsideLastRange st in
  let new := SelMany (kept ++ filter (fun id => id ∉ kept) range) in
  selectRange getNonDisabledItemsInRange params instance (start, end_) st
  = Returned tt (mkState (lastSelectedItem st) (getLookupFromArray range) new)
      (observedAt st (expectedNotifications params (selectedItems st) new)).
Proof.
  intros Hdis Hmulti Hsafe range kept new.
  unfold selectRange. rewrite Hdis, Hmulti. cbn [orb negb]. run_binds.
  fold (keptOutsideLastRange st). fold kept.
  rewrite filter_not_in_lookup. fold range. fold new.
  run_safe.
  unfold setLastSelectedRange, withValue.
  cbn [lastSelectedItem lastSelectedRange selectedItems].
  by rewrite !app_nil_r.
Qed.

Lemma selectRange_throws (params : Params) (instance : Instance) (st : State)
    (ends : string * string) :
  disableSelection params = false ->
  multiSelect params = true -> onItemSelectionToggle params = true ->
  isArray (selectedItems st) = false ->
  selectRange getNonDisabledItemsInRange params instance ends st = Threw st [].
Proof.
  intros Hdis Hmulti Htoggle Harray. destruct ends as [start end_].
  unfold selectRange. rewrite Hdis, Hmulti. cbn [orb negb]. run_binds.
  by run_throw.
Qed.

Lemma selectAllNavigableItems_run_safe (params : Params) (instance : Instance)
    (st : State) :
  disableSelection params = false ->
  multiSelect params = true ->
  safeToNotify params st = true ->
  let navigableItems := getAllNavigableItems instance in
  selectAllNavigableItems getAllNavigableItems params instance st
  = Returned tt
      (mkState (lastSelectedItem st) (getLookupFromArray navigableItems)
         (SelMany navigableItems))
      (observedAt st
         (expectedNotifications params (selectedItems st) (SelMany navigableItems))).
Proof.
  intros Hdis Hmulti Hsafe navigableItems.
  unfold selectAllNavigableItems. rewrite Hdis, Hmulti. cbn [orb negb].
  run_binds. fold navigableItems. run_safe.
  unfold setLastSelectedRange, withValue.
  cbn [lastSelectedItem lastSelectedRange selectedItems].
  by rewrite !app_nil_r.
Qed.

Lemma selectAllNavigableItems_throws (params : Params) (instance : Instance)
    (st : State) :
  disableSelection params = false ->
  multiSelect params = true -> onItemSelectionToggle params = true ->
  isArray (selectedItems st) = false ->
  selectAllNavigableItems getAllNavigableItems params instance st = Threw st [].
Proof.
  intros Hdis Hmulti Htoggle Harray.
  unfold selectAllNavigableItems. rewrite Hdis, Hmulti. cbn [orb negb].
  run_binds. by run_throw.
Qed.

End SafeFacts.

Ltac give_thrown :=
  match goal with
  | |- exists st', Threw ?X _ = _ /\ _ => exists X; split; [reflexivity|]
  end.

Section PerformSafeFacts.

Context {Instance : Type}.
Variable getNonDisabledItemsInRange : Instance -> string -> string -> list string.
Variable getAllNavigableItems : Instance -> list string.
Variable findOrderInTremauxTree : Instance -> string -> string -> string * string.
Variable getFirstNavigableItem : Instance -> string.
Variable getLastNavigableItem : Instance -> string.

Local Abbreviation performWith :=
  (perform getNonDisabledItemsInRange getAllNavigableItems findOrderInTremauxTree
     getFirstNavigableItem getLastNavigableItem).

(** [perform_mutating] under the weaker condition, with the anchor the
    operation leaves. *)
Lemma perform_safe (params : Params) (instance : Instance) (st : State)
    (op : Operation) :
  mutating params st op = true ->
  safeToNotify params st = true ->
  exists st' seenSt,
    performWith params instance op st
    = Returned tt st'
        (observedAt seenSt
           (expectedNotifications params (selectedItems st) (selectedItems st')))
    /\ wellShaped params st' = true
    /\ lastSelectedItem st'
       = match op with
         | SelectItem itemId _ => Some itemId
         | _ => lastSelectedItem st
         end.
Proof.
  intros (Hdis & Hmode & Hanchor)%mutating_true Hsafe.
  destruct op as [itemId multiple|start end_|itemId|itemId|itemId| |cur next];
    cbn [perform modeAllows anchorAllows] in *.
  - rewrite selectItem_run_safe by done. cbv zeta.
    give_outcome. split; [|done].
    unfold wellShaped. cbn [selectedItems].
    destruct (multiSelect params), multiple,
      (isItemSelected (selectedItems st) itemId); done.
  - rewrite selectRange_run_safe by done. cbv zeta.
    give_outcome. split; [|done]. unfold wellShaped. by rewrite Hmode.
  - apply bool_decide_eq_true in Hanchor as [anchor Hanchor].
    unfold expandSelectionRange. run_binds. rewrite Hanchor.
    destruct (findOrderInTremauxTree instance itemId anchor) as [start end_].
    rewrite selectRange_run_safe by done. cbv zeta. rewrite app_nil_l.
    give_outcome. split; [|done]. unfold wellShaped. by rewrite Hmode.
  - unfold selectRangeFromStartToItem.
    rewrite selectRange_run_safe by done. cbv zeta.
    give_outcome. split; [|done]. unfold wellShaped. by rewrite Hmode.
  - unfold selectRangeFromItemToEnd.
    rewrite selectRange_run_safe by done. cbv zeta.
    give_outcome. split; [|done]. unfold wellShaped. by rewrite Hmode.
  - rewrite selectAllNavigableItems_run_safe by done. cbv zeta.
    give_outcome. split; [|done]. unfold wellShaped. by rewrite Hmode.
  - rewrite selectItemFromArrowNavigation_run_safe by done. cbv zeta.
    give_outcome. split; [|done]. unfold wellShaped. by rewrite Hmode.
Qed.

Lemma perform_throws (params : Params) (instance : Instance) (st : State)
    (op : Operation) :
  mutating params st op = true ->
  multiSelect params = true -> onItemSelectionToggle params = true ->
  isArray (selectedItems st) = false ->
  exists st',
    performWith params instance op st = Threw st' []
    /\ lastSelectedItem st' = lastSelectedItem st
    /\ selectedItems st' = selectedItems st
    /\ (isArrowNavigation op = false -> st' = st).
Proof.
  intros (Hdis & Hmode & Hanchor)%mutating_true Hmulti Htoggle Harray.
  destruct op as [itemId multiple|start end_|itemId|itemId|itemId| |cur next];
    cbn [perform modeAllows anchorAllows isArrowNavigation] in *.
  - rewrite selectItem_throws by done. by give_thrown.
  - rewrite selectRange_throws by done. by give_thrown.
  - apply bool_decide_eq_true in Hanchor as [anchor Hanchor].
    unfold expandSelectionRange. run_binds. rewrite Hanchor.
    rewrite selectRange_throws by done. cbn [app]. by give_thrown.
  - unfold selectRangeFromStartToItem.
    rewrite selectRange_throws by done. by give_thrown.
  - unfold selectRangeFromItemToEnd.
    rewrite selectRange_throws by done. by give_thrown.
  - rewrite selectAllNavigableItems_throws by done. by give_thrown.
  - rewrite selectItemFromArrowNavigation_throws by done. cbv zeta.
    by give_thrown.
Qed.

End PerformSafeFacts.

(** ** Errors *)

(** Over utilities that answer, the operations throw in one case only. *)
Lemma perform_throws_over_answers {Instance : Type}
    (getNonDisabledItemsInRange : Instance -> string -> string -> list string)
    (getAllNavigableItems : Instance -> list string)
    (findOrderInTremauxTree : Instance -> string -> string -> string * string)
    (getFirstNavigableItem getLastNavigableItem : Instance -> string)
    (params : Params) (instance : Instance) (op : Operation) (st : State) :
  let out := perform getNonDisabledItemsInRange getAllNavigableItems
               findOrderInTremauxTree getFirstNavigableItem getLastNavigableItem
               params instance op st in
  returns out
  = negb (mutating params st op && multiSelect params
          && onItemSelectionToggle params && negb (isArray (selectedItems st)))
  /\ (returns out = false ->
      callsOf out = []
      /\ lastSelectedItem (finalState out) = lastSelectedItem st
      /\ selectedItems (finalState out) = selectedItems st
      /\ (isArrowNavigation op = false -> finalState out = st)).
Proof.
  intros out. subst out.
  destruct (mutating params st op) eqn:Hmut.
  - destruct (multiSelect params && onItemSelectionToggle params
              && negb (isArray (selectedItems st))) eqn:Hbad.
    + apply andb_prop in Hbad as [[Hmulti Htoggle]%andb_prop Harray].
      apply negb_true_iff in Harray.
      destruct (perform_throws getNonDisabledItemsInRange getAllNavigableItems
                  findOrderInTremauxTree getFirstNavigableItem
                  getLastNavigableItem params instance st op
                  Hmut Hmulti Htoggle Harray)
        as (st' & -> & Hanchor & Hvalue & Hsame).
      rewrite Hmulti, Htoggle, Harray. by cbn.
    + assert (safeToNotify params st = true) as Hsafe.
      { unfold safeToNotify.
        by destruct (multiSelect params), (onItemSelectionToggle params),
          (isArray (selectedItems st)). }
      destruct (perform_safe getNonDisabledItemsInRange getAllNavigableItems
                  findOrderInTremauxTree getFirstNavigableItem
                  getLastNavigableItem params instance st op Hmut Hsafe)
        as (st' & seenSt & -> & _ & _).
      cbn [returns]. split; [|done].
      by destruct (multiSelect params), (onItemSelectionToggle params),
        (isArray (selectedItems st)).
  - rewrite perform_skipped by done. by cbn.
Qed.

(** The operations throw in two cases only: a tree utility that the
    operation calls fails; or the operation passes its guards, in multi
    mode with the toggle callback configured, on a value that is not a
    sequence.  When one throws, no callback has run and the anchor and the
    value are as before; the whole triple is as before unless the
    operation is the arrow step, which has by then written the lookup. *)
Theorem perform_throws_exactly_when {Instance : Type}
    (getNonDisabledItemsInRange :
       Instance -> option string -> option string -> Answer (list string))
    (getAllNavigableItems : Instance -> Answer (list string))
    (findOrderInTremauxTree :
       Instance -> string -> string -> Answer (option string * option string))
    (getFirstNavigableItem getLastNavigableItem : Instance -> Answer (option string))
    (params : Params) (instance : Instance) (op : Operation) (st : State) :
  let out := Fallible.perform getNonDisabledItemsInRange getAllNavigableItems
               findOrderInTremauxTree getFirstNavigableItem getLastNavigableItem
               params instance op st in
  returns out
  = Fallible.utilitiesAnswer getNonDisabledItemsInRange getAllNavigableItems
      findOrderInTremauxTree getFirstNavigableItem getLastNavigableItem
      params instance st op
    && negb (mutating params st op && multiSelect params
             && onItemSelectionToggle params && negb (isArray (selectedItems st)))
  /\ (returns out = false ->
      callsOf out = []
      /\ lastSelectedItem (finalState out) = lastSelectedItem st
      /\ selectedItems (finalState out) = selectedItems st
      /\ (isArrowNavigation op = false -> finalState out = st)).
Proof.
  intros out. subst out.
  destruct (Fallible.utilitiesAnswer getNonDisabledItemsInRange
              getAllNavigableItems findOrderInTremauxTree getFirstNavigableItem
              getLastNavigableItem params instance st op) eqn:Hanswer.
  - destruct (fallible_perform_answers _ _ _ _ _ _ _ _ _ Hanswer)
      as (getRange & getAll & findOrd & getFirst & getLast & ->).
    rewrite andb_true_l.
    apply (perform_throws_over_answers getRange getAll findOrd getFirst getLast).
  - rewrite (fallible_perform_fails _ _ _ _ _ _ _ _ _ Hanswer).
    by cbn [returns finalState callsOf andb].
Qed.

Lemma perform_throws_exactly_when_witness :
  let st := mkState (Some "1") (getLookupFromArray ["1"]) (SelOne "1") in
  let shaped := mkState (Some "gone") ∅ (SelMany ["gone"]) in
  let out := performOnTree multiParams sampleTree (SelectRange "1" "2") st in
  let outside := performOnTree multiParams sampleTree (ExpandSelectionRange "1") shaped in
  returns out = false /\ finalState out = st /\ callsOf out = []
  /\ returns outside = false /\ finalState outside = shaped.
Proof.
  intros st shaped out outside.
  destruct (perform_throws_exactly_when treeRange treeAll treeOrder treeFirst
              treeLast multiParams sampleTree (SelectRange "1" "2") st)
    as [Hret Hthrown].
  split; [exact Hret|].
  destruct (Hthrown Hret) as (Hcalls & _ & _ & Hsame).
  split; [exact (Hsame eq_refl)|]. split; [exact Hcalls|].
  destruct (perform_throws_exactly_when treeRange treeAll treeOrder treeFirst
              treeLast multiParams sampleTree (ExpandSelectionRange "1") shaped)
    as [Hret2 Hthrown2].
  split; [exact Hret2|].
  destruct (Hthrown2 Hret2) as (_ & _ & _ & Hsame2). exact (Hsame2 eq_refl).
Defined.

(** ** The anchor *)

(** Only [selectItem] moves the anchor, and only when it is not disabled
    and does not throw; every other operation leaves it where it is. *)
Theorem anchor_moves_only_on_selectItem {Instance : Type}
    (getNonDisabledItemsInRange : Instance -> string -> string -> list string)
    (getAllNavigableItems : Instance -> list string)
    (findOrderInTremauxTree : Instance -> string -> string -> string * string)
    (getFirstNavigableItem getLastNavigableItem : Instance -> string)
    (params : Params) (instance : Instance) (op : Operation) (st : State) :
  let out := perform getNonDisabledItemsInRange getAllNavigableItems
               findOrderInTremauxTree getFirstNavigableItem getLastNavigableItem
               params instance op st in
  lastSelectedItem (finalState out)
  = match op with
    | SelectItem itemId _ =>
        if returns out && negb (disableSelection params)
        then Some itemId else lastSelectedItem st
    | _ => lastSelectedItem st
    end.
Proof.
  intros out. subst out.
  destruct (mutating params st op) eqn:Hmut.
  - destruct (safeToNotify params st) eqn:Hsafe.
    + destruct (perform_safe getNonDisabledItemsInRange getAllNavigableItems
                  findOrderInTremauxTree getFirstNavigableItem
                  getLastNavigableItem params instance st op Hmut Hsafe)
        as (st' & seenSt & -> & _ & Hanchor).
      cbn [finalState returns]. rewrite Hanchor.
      apply mutating_true in Hmut as (-> & _ & _). by destruct op.
    + unfold safeToNotify in Hsafe.
      apply orb_false_iff in Hsafe as [Hflags Harray].
      apply negb_false_iff, andb_prop in Hflags as [Hmulti Htoggle].
      destruct (perform_throws getNonDisabledItemsInRange getAllNavigableItems
                  findOrderInTremauxTree getFirstNavigableItem
                  getLastNavigableItem params instance st op
                  Hmut Hmulti Htoggle Harray)
        as (st' & -> & Hanchor & _ & _).
      cbn [finalState returns andb]. rewrite Hanchor. by destruct op.
  - rewrite perform_skipped by done. cbn [finalState returns].
    destruct op; try done.
    unfold mutating in Hmut. cbn [modeAllows anchorAllows] in Hmut.
    by destruct (disableSelection params).
Qed.

(** ** Defaults *)

(** Defaultizing twice is defaultizing once; and the default value fits
    the mode (a sequence in multi mode) unless the host gives one id as the
    default of a multi-select tree.  A null or missing default becomes the
    empty sequence in multi mode and null in single mode. *)
Theorem getDefaultizedParams_idempotent_and_shaped (raw : RawParams) :
  let d := getDefaultizedParams raw in
  getDefaultizedParams (asRawParams d) = d
  /\ (wellShaped (defaultized d) (firstState d) = false
      <-> rawMultiSelect raw = Some true
          /\ exists itemId, rawDefaultSelectedItems raw = Some (SelOne itemId))
  /\ (nullishOr (rawDefaultSelectedItems raw) SelNull = SelNull ->
      defaultSelectedItems d
      = if multiSelect (defaultized d) then SelMany [] else SelNull).
Proof.
  intros d. subst d. destruct raw as [dis multi def toggle change].
  unfold getDefaultizedParams, asRawParams, wellShaped, firstState.
  cbn [rawDisableSelection rawMultiSelect rawDefaultSelectedItems
       rawOnItemSelectionToggle rawOnSelectedItemsChange defaultized
       defaultSelectedItems disableSelection multiSelect onItemSelectionToggle
       onSelectedItemsChange selectedItems default].
  split_and!.
  - by destruct multi as [[|]|], def as [[| |]|].
  - split.
    + destruct multi as [[|]|], def as [[|x|]|]; cbn; try done.
      intros _. split; [done|]. by exists x.
    + intros [-> [x ->]]. done.
  - by destruct multi as [[|]|], def as [[| |]|].
Qed.

Lemma getDefaultizedParams_idempotent_and_shaped_witness :
  let raw := mkRawParams None (Some true) (Some SelNull) true true in
  nullishOr (rawDefaultSelectedItems raw) SelNull = SelNull
  /\ defaultSelectedItems (getDefaultizedParams raw) = SelMany [].
Proof.
  intros raw. split; [reflexivity|].
  exact (proj2 (proj2 (getDefaultizedParams_idempotent_and_shaped raw)) eq_refl).
Defined.

(** ** Series of operations *)

Section SeriesFacts.

Context {Instance : Type}.
Variable getNonDisabledItemsInRange :
  Instance -> option string -> option string -> Answer (list string).
Variable getAllNavigableItems : Instance -> Answer (list string).
Variable findOrderInTremauxTree :
  Instance -> string -> string -> Answer (option string * option string).
Variable getFirstNavigableItem : Instance -> Answer (option string).
Variable getLastNavigableItem : Instance -> Answer (option string).


End SeriesFacts.



(** ** Which items [selectItem] leaves selected *)

Lemma filter_other_not_in (itemId : string) (items : list string) :
  itemId ∉ items -> filter (fun id => id ≠ itemId) items = items.
Proof.
  intros Hnot. apply filter_all, Forall_forall. intros x Hx ->. done.
Qed.

Lemma isItemSelected_SelMany (items : list string) (itemId : string) :
  isItemSelected (SelMany items) itemId = bool_decide (itemId ∈ items).
Proof. by rewrite isItemSelected_convert. Qed.

(** A plain [selectItem] leaves exactly the item selected, in both modes.
    Doing it again changes nothing, and the second time the host is told
    of no toggle: only the aggregate callback, when configured, is
    called. *)
Theorem selectItem_plain_selects_only_it (params : Params) (st : State)
    (itemId : string) :
  disableSelection params = false -> wellShaped params st = true ->
  let st1 := finalState (selectItem params itemId false st) in
  let again := selectItem params itemId false st1 in
  (forall x, isItemSelected (selectedItems st1) x = bool_decide (x = itemId))
  /\ finalState again = st1
  /\ notifications again
     = if onSelectedItemsChange params
       then [SelectedItemsChange (selectedItems st1)] else [].
Proof.
  intros Hdis Hshape st1 again. subst again st1.
  rewrite selectItem_run by done. cbv zeta. cbn [finalState].
  assert (wellShaped params
            (mkState (Some itemId) ∅
               (if multiSelect params then SelMany [itemId] else SelOne itemId))
          = true) as Hshape1.
  { unfold wellShaped. by destruct (multiSelect params). }
  rewrite selectItem_run by done. cbv zeta.
  unfold notifications. cbn [finalState callsOf selectedItems].
  rewrite told_observedAt. split_and!.
  - intros x. rewrite isItemSelected_convert.
    destruct (multiSelect params); cbn [convertSelectedItemsToArray];
      apply bool_decide_ext, list_elem_of_singleton.
  - done.
  - unfold expectedNotifications, itemToggles.
    destruct (multiSelect params); cbn [convertSelectedItemsToArray].
    + unfold addedItems, removedItems.
      rewrite filter_cons_False by (intros Hnot; apply Hnot; left).
      rewrite filter_nil. by destruct (onItemSelectionToggle params).
    + cbn [strictNotEqual]. rewrite bool_decide_eq_true_2 by done.
      by destruct (onItemSelectionToggle params).
Qed.

Lemma selectItem_plain_selects_only_it_witness :
  let st := mkState (Some "2") (getLookupFromArray ["2"; "4"]) (SelMany ["9"; "2"; "4"]) in
  let st1 := finalState (selectItem multiParams "4" false st) in
  disableSelection multiParams = false /\ wellShaped multiParams st = true
  /\ isItemSelected (selectedItems st1) "9" = false
  /\ notifications (selectItem multiParams "4" false st1)
     = [SelectedItemsChange (SelMany ["4"])].
Proof.
  intros st st1. do 2 (split; [reflexivity|]).
  destruct (selectItem_plain_selects_only_it multiParams st "4" eq_refl eq_refl)
    as (Honly & _ & Hnotes).
  split; [exact (Honly "9")|exact Hnotes].
Defined.

(** An additive [selectItem] flips the selection of the item and of no
    other.  Doing it twice gives back the sequence when the item was not
    selected, and moves the item to the front when it was. *)
Theorem selectItem_additive_flips_only_it (params : Params) (st : State)
    (itemId : string) :
  disableSelection params = false -> wellShaped params st = true ->
  let items := convertSelectedItemsToArray (selectedItems st) in
  let st1 := finalState (selectItem params itemId true st) in
  let st2 := finalState (selectItem params itemId true st1) in
  (forall x, isItemSelected (selectedItems st1) x
             = if bool_decide (x = itemId)
               then negb (isItemSelected (selectedItems st) x)
               else isItemSelected (selectedItems st) x)
  /\ selectedItems st2
     = if isItemSelected (selectedItems st) itemId
       then SelMany (itemId :: filter (fun id => id ≠ itemId) items)
       else SelMany items.
Proof.
  intros Hdis Hshape items st1 st2. subst st2 st1.
  rewrite selectItem_run by done. cbv zeta. cbn [finalState].
  set (st1 := mkState _ _ _).
  assert (wellShaped params st1 = true) as Hshape1.
  { unfold wellShaped, st1. cbn [selectedItems].
    by destruct (multiSelect params), (isItemSelected (selectedItems st) itemId). }
  rewrite selectItem_run by done. cbv zeta. subst st1.
  cbn [finalState selectedItems]. fold items.
  rewrite (isItemSelected_convert (selectedItems st) itemId). fold items.
  split.
  - intros x. rewrite (isItemSelected_convert (selectedItems st) x). fold items.
    destruct (decide (itemId ∈ items)) as [Hin|Hnot].
    + rewrite (bool_decide_eq_true_2 _ Hin), isItemSelected_SelMany.
      destruct (decide (x = itemId)) as [->|Hne].
      * rewrite (bool_decide_eq_true_2 (itemId = itemId)) by done.
        rewrite (bool_decide_eq_true_2 _ Hin). cbn [negb].
        apply bool_decide_eq_false. rewrite list_elem_of_filter. by intros [? _].
      * rewrite (bool_decide_eq_false_2 (x = itemId)) by done.
        apply bool_decide_ext. rewrite list_elem_of_filter. tauto.
    + rewrite (bool_decide_eq_false_2 _ Hnot), isItemSelected_SelMany.
      destruct (decide (x = itemId)) as [->|Hne].
      * rewrite (bool_decide_eq_true_2 (itemId = itemId)) by done.
        rewrite (bool_decide_eq_false_2 _ Hnot). cbn [negb].
        apply bool_decide_eq_true. left.
      * rewrite (bool_decide_eq_false_2 (x = itemId)) by done.
        apply bool_decide_ext. rewrite elem_of_cons. tauto.
  - destruct (decide (itemId ∈ items)) as [Hin|Hnot].
    + rewrite (bool_decide_eq_true_2 _ Hin), isItemSelected_SelMany.
      cbn [convertSelectedItemsToArray].
      rewrite bool_decide_eq_false_2; [done|].
      rewrite list_elem_of_filter. by intros [? _].
    + rewrite (bool_decide_eq_false_2 _ Hnot), isItemSelected_SelMany.
      cbn [convertSelectedItemsToArray].
      rewrite bool_decide_eq_true_2 by left.
      rewrite filter_cons_False by (intros Hne; by apply Hne).
      by rewrite filter_other_not_in.
Qed.

Lemma selectItem_additive_flips_only_it_witness :
  let st := mkState (Some "2") ∅ (SelMany ["9"; "2"]) in
  let st1 := finalState (selectItem multiParams "4" true st) in
  let st2 := finalState (selectItem multiParams "4" true st1) in
  disableSelection multiParams = false /\ wellShaped multiParams st = true
  /\ isItemSelected (selectedItems st1) "4" = true
  /\ selectedItems st2 = SelMany ["9"; "2"].
Proof.
  intros st st1 st2. do 2 (split; [reflexivity|]).
  destruct (selectItem_additive_flips_only_it multiParams st "4" eq_refl eq_refl)
    as (Hflip & Hback).
  split; [exact (Hflip "4")|exact Hback].
Defined.

(** ** The notifications of single mode *)

(** In single mode with both callbacks, a plain [selectItem] tells the host
    that the old value is deselected before it tells that the item is
    selected, and then calls the aggregate callback; selecting the item
    that is the value makes no toggle.  The old value is passed as it is,
    also when it is a sequence that an additive [selectItem] left in the
    model. *)
Theorem single_mode_deselects_before_selecting (params : Params) (st : State)
    (itemId : string) :
  disableSelection params = false -> multiSelect params = false ->
  onItemSelectionToggle params = true -> onSelectedItemsChange params = true ->
  notifications (selectItem params itemId false st)
  = match selectedItems st with
    | SelNull =>
        [ItemSelectionToggle (SelOne itemId) true;
         SelectedItemsChange (SelOne itemId)]
    | SelOne old =>
        if bool_decide (itemId = old)
        then [SelectedItemsChange (SelOne itemId)]
        else [ItemSelectionToggle (SelOne old) false;
              ItemSelectionToggle (SelOne itemId) true;
              SelectedItemsChange (SelOne itemId)]
    | SelMany old =>
        [ItemSelectionToggle (SelMany old) false;
         ItemSelectionToggle (SelOne itemId) true;
         SelectedItemsChange (SelOne itemId)]
    end.
Proof.
  intros Hdis Hsingle Htoggle Hchange.
  rewrite selectItem_run by (done || (unfold wellShaped; by rewrite Hsingle)).
  cbv zeta. unfold notifications. cbn [callsOf]. rewrite told_observedAt.
  unfold expectedNotifications, itemToggles.
  rewrite Hsingle, Htoggle, Hchange.
  destruct (selectedItems st) as [|old|old]; cbn [strictNotEqual notNull]; try done.
  by destruct (bool_decide (itemId = old)).
Qed.

Lemma single_mode_deselects_before_selecting_witness :
  let st := mkState (Some "a") ∅ (SelOne "a") in
  disableSelection singleParams = false /\ multiSelect singleParams = false
  /\ onItemSelectionToggle singleParams = true
  /\ onSelectedItemsChange singleParams = true
  /\ notifications (selectItem singleParams "b" false st)
     = [ItemSelectionToggle (SelOne "a") false;
        ItemSelectionToggle (SelOne "b") true;
        SelectedItemsChange (SelOne "b")].
Proof.
  intros st. do 4 (split; [reflexivity|]).
  exact (single_mode_deselects_before_selecting singleParams st "b"
           eq_refl eq_refl eq_refl eq_refl).
Defined.

(** ** The callbacks and the triple *)

(** On a triple that fits the data model, the triple an operation ends in
    does not depend on which callbacks are configured: two sets of
    parameters with the same flags [disableSelection] and [multiSelect]
    give the same final triple. *)
Theorem final_state_independent_of_callbacks {Instance : Type}
    (getNonDisabledItemsInRange : Instance -> string -> string -> list string)
    (getAllNavigableItems : Instance -> list string)
    (findOrderInTremauxTree : Instance -> string -> string -> string * string)
    (getFirstNavigableItem getLastNavigableItem : Instance -> string)
    (params params' : Params) (instance : Instance) (op : Operation) (st : State) :
  disableSelection params' = disableSelection params ->
  multiSelect params' = multiSelect params ->
  wellShaped params st = true ->
  finalState (perform getNonDisabledItemsInRange getAllNavigableItems
                findOrderInTremauxTree getFirstNavigableItem getLastNavigableItem
                params' instance op st)
  = finalState (perform getNonDisabledItemsInRange getAllNavigableItems
                  findOrderInTremauxTree getFirstNavigableItem getLastNavigableItem
                  params instance op st).
Proof.
  intros Hd Hm Hshape.
  assert (wellShaped params' st = true) as Hshape'
    by (unfold wellShaped in *; by rewrite Hm).
  assert (mutating params' st op = mutating params st op) as Hmut.
  { unfold mutating. rewrite Hd. f_equal. f_equal.
    destruct op; cbn [modeAllows]; done. }
  destruct (mutating params st op) eqn:Hmutating.
  - pose proof Hmutating as (Hdis & Hmode & Hanchor)%mutating_true.
    assert (disableSelection params' = false) as Hdis' by congruence.
    destruct op as [itemId multiple|start end_|itemId|itemId|itemId| |cur next];
      cbn [perform modeAllows anchorAllows] in *.
    + rewrite !selectItem_run by done. cbv zeta. cbn [finalState].
      by rewrite Hm.
    + rewrite !selectRange_run by congruence. done.
    + apply bool_decide_eq_true in Hanchor as [anchor Hanchor].
      unfold expandSelectionRange. run_binds. rewrite Hanchor.
      destruct (findOrderInTremauxTree instance itemId anchor) as [start end_].
      rewrite !selectRange_run by congruence. done.
    + unfold selectRangeFromStartToItem.
      rewrite !selectRange_run by congruence. done.
    + unfold selectRangeFromItemToEnd.
      rewrite !selectRange_run by congruence. done.
    + rewrite !selectAllNavigableItems_run by congruence. done.
    + rewrite !selectItemFromArrowNavigation_run by congruence. done.
  - rewrite !perform_skipped by congruence. done.
Qed.

Lemma final_state_independent_of_callbacks_witness :
  let st := mkState (Some "2") (getLookupFromArray ["2"; "4"]) (SelMany ["9"; "2"; "4"]) in
  let silent := mkParams false true false false in
  wellShaped multiParams st = true
  /\ finalState (perform rangeBetween allNavigableItems (fun _ a b => (a, b))
                   (fun _ => "1") (fun _ => "4")
                   silent sampleTree (SelectRange "2" "1.1") st)
     = finalState (perform rangeBetween allNavigableItems (fun _ a b => (a, b))
                     (fun _ => "1") (fun _ => "4")
                     multiParams sampleTree (SelectRange "2" "1.1") st).
Proof.
  intros st silent. split; [reflexivity|].
  exact (final_state_independent_of_callbacks rangeBetween allNavigableItems
           (fun _ a b => (a, b)) (fun _ => "1") (fun _ => "4")
           multiParams silent sampleTree
           (SelectRange "2" "1.1") st eq_refl eq_refl eq_refl).
Defined.

(** ** How range selections compose *)

Lemma filter_lookup_of_range (range items : list string) :
  filter (fun id => truthy (getLookupFromArray range) id = false) items
  = filter (fun id => id ∉ range) items.
Proof. apply filter_not_in_lookup. Qed.

Lemma filter_range_after_range (range kept : list string) :
  filter (fun id => id ∉ range) (kept ++ filter (fun id => id ∉ kept) range)
  = filter (fun id => id ∉ range) kept.
Proof.
  rewrite filter_app.
  rewrite (filter_none (fun id => id ∉ range)
             (filter (fun id => id ∉ kept) range)), app_nil_r; [done|].
  apply Forall_forall. intros x [_ Hx]%list_elem_of_filter Hnot. done.
Qed.

Lemma keptOutsideLastRange_after_range (anchor : option string)
    (range items : list string) :
  keptOutsideLastRange (mkState anchor (getLookupFromArray range) (SelMany items))
  = filter (fun id => id ∉ range) items.
Proof.
  unfold keptOutsideLastRange.
  cbn [lastSelectedRange selectedItems convertSelectedItemsToArray].
  destruct (0 <? keysLength (getLookupFromArray range)) eqn:Hkeys.
  - apply filter_lookup_of_range.
  - apply Nat.ltb_ge in Hkeys.
    rewrite (getLookupFromArray_no_keys range) by lia.
    symmetry. apply filter_all, Forall_forall. intros x _. apply not_elem_of_nil.
Qed.

(** Two range selections in a row: the second takes out what the first put
    in.  The value ends as the ids that the first call kept and that lie
    outside the first range, followed by the ids of the second range; no
    id of the first range that is outside the second stays selected, not
    even one that was selected before the first range. *)
Theorem selectRange_twice_drops_first_range {Instance : Type}
    (getNonDisabledItemsInRange : Instance -> string -> string -> list string)
    (params : Params) (instance1 instance2 : Instance) (st : State)
    (start1 end1 start2 end2 : string) :
  disableSelection params = false -> multiSelect params = true ->
  wellShaped params st = true ->
  let st1 := finalState (selectRange getNonDisabledItemsInRange params instance1
                           (start1, end1) st) in
  let st2 := finalState (selectRange getNonDisabledItemsInRange params instance2
                           (start2, end2) st1) in
  let range1 := getNonDisabledItemsInRange instance1 start1 end1 in
  let range2 := getNonDisabledItemsInRange instance2 start2 end2 in
  let kept := keptOutsideLastRange st in
  let rest := filter (fun id => id ∉ range1) kept in
  selectedItems st2 = SelMany (rest ++ filter (fun id => id ∉ rest) range2)
  /\ lastSelectedRange st2 = getLookupFromArray range2
  /\ (forall id, id ∈ range1 -> id ∉ range2 -> ~ appearsIn id (selectedItems st2)).
Proof.
  intros Hdis Hmulti Hshape st1 st2 range1 range2 kept rest.
  assert (selectedItems st2 = SelMany (rest ++ filter (fun id => id ∉ rest) range2)
          /\ lastSelectedRange st2 = getLookupFromArray range2) as [Hvalue Hlookup].
  { subst st2 st1.
    rewrite (selectRange_run _ params instance1 st start1 end1) by done.
    cbv zeta. cbn [finalState]. fold range1 kept.
    rewrite selectRange_run
      by (done || (unfold wellShaped; by rewrite Hmulti)).
    cbv zeta. cbn [finalState selectedItems lastSelectedRange]. fold range2.
    by rewrite keptOutsideLastRange_after_range, filter_range_after_range. }
  split_and!; [done|done|].
  intros id Hin1 Hnot2. rewrite Hvalue. cbn [appearsIn].
  rewrite elem_of_app, !list_elem_of_filter. subst rest.
  rewrite list_elem_of_filter. tauto.
Qed.

Lemma selectRange_twice_drops_first_range_witness :
  let st := mkState (Some "2") ∅ (SelMany ["4"; "2"]) in
  let st1 := finalState (selectRange rangeBetween multiParams sampleTree ("2", "4") st) in
  let st2 := finalState (selectRange rangeBetween multiParams sampleTree ("2", "1.1") st1) in
  disableSelection multiParams = false /\ multiSelect multiParams = true
  /\ wellShaped multiParams st = true
  /\ selectedItems st2 = SelMany ["1.1"; "1.1.1"; "2"]
  /\ ~ appearsIn "4" (selectedItems st2).
Proof.
  intros st st1 st2. do 3 (split; [reflexivity|]).
  destruct (selectRange_twice_drops_first_range rangeBetween multiParams
              sampleTree sampleTree st "2" "4" "2" "1.1" eq_refl eq_refl eq_refl)
    as (Hvalue & _ & Hgone).
  split; [etransitivity; [exact Hvalue|by vm_compute]|].
  apply Hgone.
  - vm_compute. apply list_elem_of_In. right. left. reflexivity.
  - vm_compute. intros Hin%list_elem_of_In. cbn in Hin.
    destruct Hin as [H|[H|[H|[]]]]; discriminate H.
Defined.

(** Select all, then select a range: the value is exactly the range the
    tree gives, whatever was selected before. *)
Theorem selectAll_then_selectRange_is_the_range {Instance : Type}
    (getNonDisabledItemsInRange : Instance -> string -> string -> list string)
    (getAllNavigableItems : Instance -> list string)
    (params : Params) (instance1 instance2 : Instance) (st : State)
    (start end_ : string) :
  disableSelection params = false -> multiSelect params = true ->
  wellShaped params st = true ->
  let st1 := finalState (selectAllNavigableItems getAllNavigableItems params
                           instance1 st) in
  let st2 := finalState (selectRange getNonDisabledItemsInRange params instance2
                           (start, end_) st1) in
  selectedItems st2 = SelMany (getNonDisabledItemsInRange instance2 start end_)
  /\ lastSelectedRange st2
     = getLookupFromArray (getNonDisabledItemsInRange instance2 start end_).
Proof.
  intros Hdis Hmulti Hshape st1 st2. subst st2 st1.
  rewrite selectAllNavigableItems_run by done. cbv zeta. cbn [finalState].
  rewrite selectRange_run by (done || (unfold wellShaped; by rewrite Hmulti)).
  cbv zeta. cbn [finalState selectedItems lastSelectedRange].
  split; [|done]. rewrite keptOutsideLastRange_after_range.
  rewrite (filter_none (fun id => id ∉ getAllNavigableItems instance1)
             (getAllNavigableItems instance1))
    by (apply Forall_forall; intros x Hx Hnot; done).
  cbn [app]. f_equal. apply filter_all, Forall_forall.
  intros x _. apply not_elem_of_nil.
Qed.

Lemma selectAll_then_selectRange_is_the_range_witness :
  let st := mkState (Some "2") ∅ (SelMany ["9"; "2"]) in
  let st1 := finalState (selectAllNavigableItems allNavigableItems multiParams
                           sampleTree st) in
  let st2 := finalState (selectRange rangeBetween multiParams sampleTree
                           ("2", "4") st1) in
  disableSelection multiParams = false /\ multiSelect multiParams = true
  /\ wellShaped multiParams st = true
  /\ selectedItems st2 = SelMany ["2"; "4"].
Proof.
  intros st st1 st2. do 3 (split; [reflexivity|]).
  etransitivity;
    [exact (proj1 (selectAll_then_selectRange_is_the_range rangeBetween
                     allNavigableItems multiParams sampleTree sampleTree st "2" "4"
                     eq_refl eq_refl eq_refl))|by vm_compute].
Defined.

(** A range that the tree gives empty (as the tree index does for an id it
    does not know): [selectRange] hands over what it keeps of the value,
    without the last range, puts nothing in, and leaves the lookup built
    from the empty range, which has no key. *)
Theorem selectRange_empty_range_deselects_last {Instance : Type}
    (getNonDisabledItemsInRange : Instance -> string -> string -> list string)
    (params : Params) (instance : Instance) (st : State) (start end_ : string) :
  disableSelection params = false -> multiSelect params = true ->
  wellShaped params st = true ->
  getNonDisabledItemsInRange instance start end_ = [] ->
  let out := selectRange getNonDisabledItemsInRange params instance (start, end_) st in
  selectedItems (finalState out) = SelMany (keptOutsideLastRange st)
  /\ lastSelectedRange (finalState out) = getLookupFromArray []
  /\ keysLength (lastSelectedRange (finalState out)) = 0.
Proof.
  intros Hdis Hmulti Hshape Hempty out. subst out.
  rewrite selectRange_run by done. cbv zeta.
  cbn [finalState selectedItems lastSelectedRange]. rewrite Hempty.
  rewrite filter_nil, app_nil_r. split_and!; done.
Qed.

Lemma selectRange_empty_range_deselects_last_witness :
  let st := mkState (Some "2") (getLookupFromArray ["2"; "4"]) (SelMany ["9"; "2"; "4"]) in
  let out := selectRange rangeBetween multiParams sampleTree ("2", "unknown") st in
  disableSelection multiParams = false /\ multiSelect multiParams = true
  /\ wellShaped multiParams st = true
  /\ rangeBetween sampleTree "2" "unknown" = []
  /\ selectedItems (finalState out) = SelMany ["9"]
  /\ keysLength (lastSelectedRange (finalState out)) = 0.
Proof.
  intros st out. do 4 (split; [reflexivity|]).
  destruct (selectRange_empty_range_deselects_last rangeBetween multiParams
              sampleTree st "2" "unknown" eq_refl eq_refl eq_refl eq_refl)
    as (Hvalue & _ & Hkeys).
  split; [etransitivity; [exact Hvalue|by vm_compute]|exact Hkeys].
Defined.

(** ** Click, then shift-click *)

(** In multi mode a plain [selectItem] on an item followed by
    [expandSelectionRange] on another selects the first item and the range
    the tree gives between the two, and nothing else: the value is the
    first item followed by the rest of the range, the lookup is the range,
    and the first item stays the anchor. *)
Theorem click_then_shift_click_selects_range {Instance : Type}
    (getNonDisabledItemsInRange : Instance -> string -> string -> list string)
    (findOrderInTremauxTree : Instance -> string -> string -> string * string)
    (params : Params) (instance : Instance) (st : State) (clicked shifted : string) :
  disableSelection params = false -> multiSelect params = true ->
  wellShaped params st = true ->
  let st1 := finalState (selectItem params clicked false st) in
  let st2 := finalState (expandSelectionRange getNonDisabledItemsInRange
                           findOrderInTremauxTree params instance shifted st1) in
  let ends := findOrderInTremauxTree instance shifted clicked in
  let range := getNonDisabledItemsInRange instance ends.1 ends.2 in
  selectedItems st2 = SelMany (clicked :: filter (fun id => id ≠ clicked) range)
  /\ lastSelectedRange st2 = getLookupFromArray range
  /\ lastSelectedItem st2 = Some clicked
  /\ (forall id, appearsIn id (selectedItems st2) <-> id = clicked \/ id ∈ range).
Proof.
  intros Hdis Hmulti Hshape st1 st2 ends range.
  assert (selectedItems st2 = SelMany (clicked :: filter (fun id => id ≠ clicked) range)
          /\ lastSelectedRange st2 = getLookupFromArray range
          /\ lastSelectedItem st2 = Some clicked) as (Hvalue & Hlookup & Hanchor).
  { subst st2 st1. rewrite selectItem_run by done. cbv zeta. cbn [finalState].
    rewrite Hmulti. unfold expandSelectionRange. run_binds.
    cbn [lastSelectedItem]. fold ends.
    destruct ends as [start end_] eqn:Hends. subst range. cbn [fst snd].
    rewrite selectRange_run by (done || (unfold wellShaped; by rewrite Hmulti)).
    cbv zeta. cbn [finalState selectedItems lastSelectedRange lastSelectedItem
                   convertSelectedItemsToArray].
    split_and!; try done.
    unfold keptOutsideLastRange.
    cbn [lastSelectedRange selectedItems convertSelectedItemsToArray].
    change (keysLength ∅) with 0. cbn [Nat.ltb Nat.leb app]. do 2 f_equal.
    apply list_filter_iff. intros id. rewrite list_elem_of_singleton. done. }
  split_and!; try done.
  intros id. rewrite Hvalue. cbn [appearsIn].
  rewrite elem_of_cons, list_elem_of_filter.
  destruct (decide (id = clicked)); tauto.
Qed.

Lemma click_then_shift_click_selects_range_witness :
  let st := emptyState (SelMany ["2"]) in
  let st1 := finalState (selectItem multiParams "4" false st) in
  let st2 := finalState (expandSelectionRange rangeBetween
                           (fun _ idA idB => (idA, idB)) multiParams
                           sampleTree "1.1.1" st1) in
  disableSelection multiParams = false /\ multiSelect multiParams = true
  /\ wellShaped multiParams st = true
  /\ selectedItems st2 = SelMany ["4"; "1.1.1"; "2"].
Proof.
  intros st st1 st2. do 3 (split; [reflexivity|]).
  etransitivity;
    [exact (proj1 (click_then_shift_click_selects_range rangeBetween
                     (fun _ idA idB => (idA, idB))
                     multiParams sampleTree st "4" "1.1.1"
                     eq_refl eq_refl eq_refl))|by vm_compute].
Defined.

(** When the range of the tree does not depend on the order of its ends and
    [findOrderInTremauxTree] gives back its two arguments in one order or
    the other, [expandSelectionRange] on an item is [selectRange] between
    the anchor and the item. *)
Theorem expandSelectionRange_is_selectRange_from_anchor {Instance : Type}
    (getNonDisabledItemsInRange : Instance -> string -> string -> list string)
    (findOrderInTremauxTree : Instance -> string -> string -> string * string)
    (params : Params) (instance : Instance) (st : State) (itemId anchor : string) :
  (forall a b, getNonDisabledItemsInRange instance a b
               = getNonDisabledItemsInRange instance b a) ->
  (forall a b, findOrderInTremauxTree instance a b = (a, b)
               \/ findOrderInTremauxTree instance a b = (b, a)) ->
  lastSelectedItem st = Some anchor ->
  expandSelectionRange getNonDisabledItemsInRange findOrderInTremauxTree
    params instance itemId st
  = selectRange getNonDisabledItemsInRange params instance (anchor, itemId) st.
Proof.
  intros Hsym Hord Hanchor. unfold expandSelectionRange. run_binds.
  rewrite Hanchor.
  assert (forall ends, ends = (itemId, anchor) \/ ends = (anchor, itemId) ->
            selectRange getNonDisabledItemsInRange params instance ends st
            = selectRange getNonDisabledItemsInRange params instance
                (anchor, itemId) st) as Hsame.
  { intros ends [-> | ->]; [|done]. unfold selectRange.
    by rewrite (Hsym itemId anchor). }
  rewrite (Hsame _ (Hord itemId anchor)).
  destruct (selectRange getNonDisabledItemsInRange params instance
              (anchor, itemId) st); by rewrite ?app_nil_l.
Qed.

Lemma expandSelectionRange_is_selectRange_from_anchor_witness :
  let st := mkState (Some "4") ∅ (SelMany ["4"]) in
  lastSelectedItem st = Some "4"
  /\ expandSelectionRange rangeBetween (fun _ idA idB => (idA, idB))
       multiParams sampleTree "1.1" st
     = selectRange rangeBetween multiParams sampleTree ("4", "1.1") st.
Proof.
  intros st. split; [reflexivity|].
  exact (expandSelectionRange_is_selectRange_from_anchor rangeBetween
           (fun _ idA idB => (idA, idB))
           multiParams sampleTree st "1.1" "4"
           (rangeBetween_symmetric sampleTree) (fun idA idB => or_introl eq_refl)
           eq_refl).
Defined.

(** ** Duplicates in the value *)

Lemma NoDup_kept_and_added (kept range : list string) :
  NoDup kept -> NoDup range ->
  NoDup (kept ++ filter (fun id => id ∉ kept) range).
Proof.
  intros Hkept Hrange. apply NoDup_app. split_and!.
  - done.
  - intros x Hx [Hnot _]%list_elem_of_filter. done.
  - by apply NoDup_filter.
Qed.

(** When the tree gives ranges and navigable items without duplicates,
    every operation but the arrow step keeps a value without duplicates
    that way. *)
Theorem operations_keep_value_duplicate_free {Instance : Type}
    (getNonDisabledItemsInRange : Instance -> string -> string -> list string)
    (getAllNavigableItems : Instance -> list string)
    (findOrderInTremauxTree : Instance -> string -> string -> string * string)
    (getFirstNavigableItem getLastNavigableItem : Instance -> string)
    (params : Params) (instance : Instance) (op : Operation) (st : State) :
  wellShaped params st = true ->
  NoDup (convertSelectedItemsToArray (selectedItems st)) ->
  (forall a b, NoDup (getNonDisabledItemsInRange instance a b)) ->
  NoDup (getAllNavigableItems instance) ->
  isArrowNavigation op = false ->
  let out := perform getNonDisabledItemsInRange getAllNavigableItems
               findOrderInTremauxTree getFirstNavigableItem getLastNavigableItem
               params instance op st in
  NoDup (convertSelectedItemsToArray (selectedItems (finalState out))).
Proof.
  intros Hshape Hnodup Hrange Hall Harrow out. subst out.
  destruct (mutating params st op) eqn:Hmut;
    [|by rewrite perform_skipped by done].
  pose proof Hmut as (Hdis & Hmode & Hanchor)%mutating_true.
  assert (forall a b,
             NoDup (keptOutsideLastRange st
                    ++ filter (fun id => id ∉ keptOutsideLastRange st)
                         (getNonDisabledItemsInRange instance a b))) as Hnew.
  { intros a b. apply NoDup_kept_and_added; [|done].
    unfold keptOutsideLastRange.
    destruct (0 <? keysLength (lastSelectedRange st)); [by apply NoDup_filter|done]. }
  destruct op as [itemId multiple|start end_|itemId|itemId|itemId| |cur next];
    cbn [perform modeAllows anchorAllows isArrowNavigation] in *; [| | | | | |done].
  - rewrite selectItem_run by done. cbv zeta. cbn [finalState selectedItems].
    destruct multiple.
    + rewrite isItemSelected_convert.
      destruct (decide (itemId ∈ convertSelectedItemsToArray (selectedItems st)))
        as [Hin|Hnot].
      * rewrite bool_decide_eq_true_2 by done.
        cbn [convertSelectedItemsToArray]. by apply NoDup_filter.
      * rewrite bool_decide_eq_false_2 by done.
        cbn [convertSelectedItemsToArray]. by apply NoDup_cons.
    + destruct (multiSelect params); cbn [convertSelectedItemsToArray];
        apply NoDup_singleton.
  - rewrite selectRange_run by done. cbv zeta.
    cbn [finalState selectedItems convertSelectedItemsToArray]. apply Hnew.
  - apply bool_decide_eq_true in Hanchor as [anchor Hanchor].
    unfold expandSelectionRange. run_binds. rewrite Hanchor.
    destruct (findOrderInTremauxTree instance itemId anchor) as [start end_].
    rewrite selectRange_run by done. cbv zeta.
    cbn [finalState selectedItems convertSelectedItemsToArray]. apply Hnew.
  - unfold selectRangeFromStartToItem.
    rewrite selectRange_run by done. cbv zeta.
    cbn [finalState selectedItems convertSelectedItemsToArray]. apply Hnew.
  - unfold selectRangeFromItemToEnd.
    rewrite selectRange_run by done. cbv zeta.
    cbn [finalState selectedItems convertSelectedItemsToArray]. apply Hnew.
  - rewrite selectAllNavigableItems_run by done. cbv zeta.
    by cbn [finalState selectedItems convertSelectedItemsToArray].
Qed.

(** ** More on the arrow step *)

Lemma arrowStep_extends (lookup : LookupObject) (items : list string)
    (currentItem nextItem : string) :
  keysLength lookup = 0
  \/ truthy (if truthy lookup currentItem then lookup else ∅) nextItem = false ->
  (arrowStep lookup items currentItem nextItem).2 = items ++ [nextItem].
Proof.
  intros Hnext. unfold arrowStep.
  destruct (keysLength lookup =? 0) eqn:Hkeys; [done|].
  destruct Hnext as [Hzero|Hnext]; [by rewrite Hzero in Hkeys|].
  destruct (truthy lookup currentItem); cbn [negb] in *; by rewrite Hnext.
Qed.

(** The arrow step appends [nextItem] without looking at the value: when
    the lookup has no own key, or does not read [nextItem] as true (after
    its replacement by the empty object when it does not read
    [currentItem] as true), and the item is already selected, the value
    gets it a second time, and the host is told of no toggle, only of the
    change. *)
Theorem arrow_step_duplicates_selected_item (params : Params) (st : State)
    (currentItem nextItem : string) :
  disableSelection params = false -> multiSelect params = true ->
  wellShaped params st = true ->
  let items := convertSelectedItemsToArray (selectedItems st) in
  let lookup := lastSelectedRange st in
  keysLength lookup = 0
  \/ truthy (if truthy lookup currentItem then lookup else ∅) nextItem = false ->
  nextItem ∈ items ->
  let out := selectItemFromArrowNavigation params currentItem nextItem st in
  selectedItems (finalState out) = SelMany (items ++ [nextItem])
  /\ ~ NoDup (items ++ [nextItem])
  /\ notifications out
     = if onSelectedItemsChange params
       then [SelectedItemsChange (SelMany (items ++ [nextItem]))] else [].
Proof.
  intros Hdis Hmulti Hshape items lookup Hnext Hin out. subst out.
  rewrite selectItemFromArrowNavigation_run by done. cbv zeta.
  unfold notifications. cbn [finalState callsOf selectedItems].
  rewrite told_observedAt. fold items lookup.
  rewrite arrowStep_extends by done. split_and!.
  - done.
  - rewrite NoDup_app. intros (_ & Hdisjoint & _).
    apply (Hdisjoint nextItem Hin). left.
  - unfold expectedNotifications, itemToggles. rewrite Hmulti.
    cbn [convertSelectedItemsToArray]. fold items.
    unfold addedItems, removedItems.
    rewrite (filter_none (fun itemId => itemId ∉ items) (items ++ [nextItem])).
    2:{ apply Forall_forall. intros x [Hx|Hx%list_elem_of_singleton]%elem_of_app Hnot.
        - done.
        - by subst x. }
    rewrite (filter_none (fun itemId => itemId ∉ items ++ [nextItem]) items).
    2:{ apply Forall_forall. intros x Hx Hnot. apply Hnot, elem_of_app. by left. }
    by destruct (onItemSelectionToggle params).
Qed.

Lemma arrow_step_duplicates_selected_item_witness :
  let st := mkState (Some "2") ∅ (SelMany ["1"; "2"]) in
  let out := selectItemFromArrowNavigation multiParams "1" "2" st in
  disableSelection multiParams = false /\ multiSelect multiParams = true
  /\ wellShaped multiParams st = true
  /\ selectedItems (finalState out) = SelMany ["1"; "2"; "2"]
  /\ notifications out = [SelectedItemsChange (SelMany ["1"; "2"; "2"])].
Proof.
  intros st out. do 3 (split; [reflexivity|]).
  assert ("2" ∈ convertSelectedItemsToArray (selectedItems st)) as Hin
    by (right; left).
  destruct (arrow_step_duplicates_selected_item multiParams st "1" "2"
              eq_refl eq_refl eq_refl (or_introl eq_refl) Hin)
    as (Hvalue & _ & Hnotes).
  split; [exact Hvalue|exact Hnotes].
Defined.

Lemma not_truthy_not_own (lookup : LookupObject) (itemId : string) :
  own lookup !! itemId = None -> truthy lookup itemId = false ->
  ordinary lookup = false \/ inherited itemId = false.
Proof.
  unfold truthy. intros ->. by intros [-> | ->]%andb_false_iff; [left|right].
Qed.

Lemma truthy_insert_other (entries : gmap string bool) (kind : bool)
    (itemId other : string) :
  itemId ≠ other ->
  truthy (mkLookup (<[other := true]> entries) kind) itemId
  = truthy (mkLookup entries kind) itemId.
Proof.
  intros Hne. unfold truthy. cbn [own ordinary].
  by rewrite lookup_insert_ne.
Qed.

Lemma truthy_insert_same (entries : gmap string bool) (kind : bool)
    (itemId : string) :
  truthy (mkLookup (<[itemId := true]> entries) kind) itemId = true.
Proof. unfold truthy. cbn [own]. by rewrite lookup_insert_eq. Qed.

Lemma keysLength_insert (entries : gmap string bool) (kind : bool)
    (itemId : string) :
  keysLength (mkLookup (<[itemId := true]> entries) kind) ≠ 0.
Proof.
  unfold keysLength. cbn [own]. intros Hzero%map_size_empty_iff.
  by apply insert_non_empty in Hzero.
Qed.

(** A step forward and the step back: when [nextItem] is not selected and
    either the lookup has no own key, or it reads [currentItem] as true,
    does not read [nextItem] as true and has no own key [nextItem], the
    arrow step from [currentItem] to [nextItem] followed by the step from
    [nextItem] to [currentItem] gives back the value.  The lookup ends as
    the literal of the two ids without [nextItem] in the first case and as
    it was in the second; it reads [currentItem] as true, and the anchor
    stays. *)
Theorem arrow_step_forward_then_back (params : Params) (st : State)
    (currentItem nextItem : string) :
  disableSelection params = false -> multiSelect params = true ->
  wellShaped params st = true ->
  let items := convertSelectedItemsToArray (selectedItems st) in
  let lookup := lastSelectedRange st in
  currentItem ≠ nextItem ->
  nextItem ∉ items ->
  keysLength lookup = 0
  \/ (truthy lookup currentItem = true /\ truthy lookup nextItem = false
      /\ own lookup !! nextItem = None) ->
  let st1 := finalState (selectItemFromArrowNavigation params currentItem nextItem st) in
  let st2 := finalState (selectItemFromArrowNavigation params nextItem currentItem st1) in
  selectedItems st1 = SelMany (items ++ [nextItem])
  /\ selectedItems st2 = SelMany items
  /\ lastSelectedRange st2
     = (if keysLength lookup =? 0
        then deleteProperty (objectOfTwo currentItem nextItem) nextItem
        else lookup)
  /\ truthy (lastSelectedRange st2) currentItem = true
  /\ lastSelectedItem st2 = lastSelectedItem st.
Proof.
  intros Hdis Hmulti Hshape items lookup Hdiff Hnot Hcur st1 st2.
  assert (filter (fun id => id ≠ nextItem) (items ++ [nextItem]) = items)
    as Hback.
  { rewrite filter_app, filter_other_not_in by done.
    rewrite filter_cons_False by (intros Hne; by apply Hne).
    by rewrite filter_nil, app_nil_r. }
  assert (exists entries kind,
            arrowStep lookup items currentItem nextItem
            = (mkLookup (<[nextItem := true]> entries) kind, items ++ [nextItem])
            /\ truthy (mkLookup entries kind) currentItem = true
            /\ mkLookup (delete nextItem (<[nextItem := true]> entries)) kind
               = (if keysLength lookup =? 0
                  then deleteProperty (objectOfTwo currentItem nextItem) nextItem
                  else lookup))
    as (entries & kind & Hstep1 & Hreads & Hends).
  { destruct (keysLength lookup =? 0) eqn:Hzero.
    - exists (<[currentItem := true]> ∅), true. split_and!.
      + apply arrowStep_no_keys. by apply Nat.eqb_eq.
      + apply truthy_insert_same.
      + done.
    - apply Nat.eqb_neq in Hzero.
      destruct Hcur as [Hnone | (Hreads & Hnext & Hown)]; [done|].
      exists (own lookup), (ordinary lookup). split_and!.
      + rewrite arrowStep_keys by done. cbv zeta. rewrite Hreads, Hnext.
        by rewrite assignTrue_insert by by apply not_truthy_not_own.
      + by destruct lookup.
      + rewrite delete_insert_id by done. by destruct lookup. }
  assert (arrowStep (mkLookup (<[nextItem := true]> entries) kind)
            (items ++ [nextItem]) nextItem currentItem
          = (mkLookup (delete nextItem (<[nextItem := true]> entries)) kind, items))
    as Hstep2.
  { rewrite arrowStep_keys by apply keysLength_insert. cbv zeta.
    rewrite truthy_insert_same, truthy_insert_other, Hreads by done.
    by rewrite Hback. }
  subst st2 st1.
  rewrite (selectItemFromArrowNavigation_run params st currentItem nextItem)
    by done.
  cbv zeta. cbn [finalState]. fold items lookup. rewrite Hstep1. cbn [fst snd].
  rewrite selectItemFromArrowNavigation_run
    by (done || (unfold wellShaped; by rewrite Hmulti)).
  cbv zeta. cbn [finalState selectedItems lastSelectedRange lastSelectedItem
                 convertSelectedItemsToArray].
  rewrite Hstep2. cbn [fst snd]. split_and!; try done.
  unfold truthy in *. cbn [own ordinary] in *.
  rewrite delete_insert_eq. destruct (decide (currentItem = nextItem)); [done|].
  by rewrite lookup_delete_ne.
Qed.

Lemma arrow_step_forward_then_back_witness :
  let st := mkState (Some "1") (getLookupFromArray ["1"; "2"]) (SelMany ["1"; "2"]) in
  let st1 := finalState (selectItemFromArrowNavigation multiParams "2" "4" st) in
  let st2 := finalState (selectItemFromArrowNavigation multiParams "4" "2" st1) in
  disableSelection multiParams = false /\ multiSelect multiParams = true
  /\ wellShaped multiParams st = true
  /\ "2" ≠ "4"
  /\ ("4" ∉ convertSelectedItemsToArray (selectedItems st))
  /\ truthy (lastSelectedRange st) "2" = true
  /\ truthy (lastSelectedRange st) "4" = false
  /\ own (lastSelectedRange st) !! "4" = None
  /\ selectedItems st1 = SelMany ["1"; "2"; "4"]
  /\ selectedItems st2 = SelMany ["1"; "2"]
  /\ lastSelectedRange st2 = getLookupFromArray ["1"; "2"].
Proof.
  intros st st1 st2. do 3 (split; [reflexivity|]).
  assert ("2" ≠ "4") as Hdiff by discriminate.
  assert ("4" ∉ convertSelectedItemsToArray (selectedItems st)) as Hnot.
  { intros Hin%list_elem_of_In. cbn in Hin.
    destruct Hin as [H|[H|[]]]; discriminate H. }
  assert (truthy (lastSelectedRange st) "2" = true) as Hcur by (by vm_compute).
  assert (truthy (lastSelectedRange st) "4" = false) as Hnext by (by vm_compute).
  assert (own (lastSelectedRange st) !! "4" = None) as Hnone by (by vm_compute).
  do 5 (split; [assumption|]).
  destruct (arrow_step_forward_then_back multiParams st "2" "4"
              eq_refl eq_refl eq_refl Hdiff Hnot
              (or_intror (conj Hcur (conj Hnext Hnone))))
    as (Hvalue1 & Hvalue2 & Hlookup & _ & _).
  split; [exact Hvalue1|]. split; [exact Hvalue2|exact Hlookup].
Defined.

Lemma rangeBetween_NoDup (tree : TreeIndex) (idA idB : string) :
  NoDup (allNavigableItems tree) -> NoDup (rangeBetween tree idA idB).
Proof.
  intros Hnodup. eapply sublist_NoDup; [exact Hnodup|].
  apply rangeBetween_tree_order.
Qed.

Lemma allNavigableItems_sampleTree_NoDup : NoDup (allNavigableItems sampleTree).
Proof.
  apply (bool_decide_unpack (NoDup (allNavigableItems sampleTree))).
  by vm_compute.
Qed.

Lemma operations_keep_value_duplicate_free_witness :
  let st := mkState (Some "2") (getLookupFromArray ["2"]) (SelMany ["4"; "2"]) in
  let out := perform rangeBetween allNavigableItems (fun _ idA idB => (idA, idB))
               (fun _ => "1") (fun _ => "4")
               multiParams sampleTree (SelectRange "2" "4") st in
  wellShaped multiParams st = true
  /\ NoDup (convertSelectedItemsToArray (selectedItems st))
  /\ NoDup (convertSelectedItemsToArray (selectedItems (finalState out))).
Proof.
  intros st out. split; [reflexivity|].
  assert (NoDup (convertSelectedItemsToArray (selectedItems st))) as Hnodup.
  { apply (bool_decide_unpack
             (NoDup (convertSelectedItemsToArray (selectedItems st)))).
    by vm_compute. }
  split; [exact Hnodup|].
  exact (operations_keep_value_duplicate_free rangeBetween allNavigableItems
           (fun _ idA idB => (idA, idB)) (fun _ => "1") (fun _ => "4")
           multiParams sampleTree
           (SelectRange "2" "4") st eq_refl Hnodup
           (fun a b => rangeBetween_NoDup sampleTree a b
                         allNavigableItems_sampleTree_NoDup)
           allNavigableItems_sampleTree_NoDup eq_refl).
Defined.
